(** * TornadoChart: layout engine of the tornado-chart visual

    A shallow embedding of [tornadoChart.ts] (class [TornadoChart]) and the
    properties of its geometry pipeline.

    Numbers.  A JavaScript number is modelled by the type [number]: a finite
    value is an exact rational ([Fin q]), and the three non-finite values
    and [undefined] are kept apart, because the code can produce them
    ([d3.min] of an empty array, a division by a zero length).  The
    arithmetic of [number] is exact: it has neither the rounding nor the
    overflow of binary64.  A statement below that compares numbers, or that
    equates a field with the very expression the code computes, does not
    depend on that; a statement that needs exact arithmetic says so, and
    the module [Binary64] evaluates the scale of the bars in binary64 where
    the difference shows.
    Quantities that the host hands over (viewport, margins, section sizes,
    measured text sizes, series values) are finite and are typed [Q].
    Zero is unsigned: a division by zero is a division by [+0], which is the
    only zero divisor the code can build (an array length). *)

From Stdlib Require Import QArith Qminmax Lqa Lia List String Bool Arith.
From Stdlib Require Floats.
Import ListNotations.

Local Open Scope Q_scope.

(** ** JavaScript numbers *)

Inductive number : Type :=
| Fin (q : Q)             (* a finite number *)
| Inf (negative : bool)   (* Infinity, or -Infinity when [negative] *)
| NaN
| Undefined.              (* the value [undefined]; ToNumber makes it NaN *)

Definition Qlt_bool (x y : Q) : bool := negb (Qle_bool y x).

Definition is_finite (a : number) : bool :=
  match a with Fin _ => true | _ => false end.

(** [-a] *)
Definition nneg (a : number) : number :=
  match a with
  | Fin x => Fin (- x)
  | Inf s => Inf (negb s)
  | NaN | Undefined => NaN
  end.

(** [a + b] *)
Definition nadd (a b : number) : number :=
  match a, b with
  | Fin x, Fin y => Fin (x + y)
  | Fin _, Inf s | Inf s, Fin _ => Inf s
  | Inf s, Inf t => if Bool.eqb s t then Inf s else NaN
  | _, _ => NaN
  end.

(** [a - b] *)
Definition nsub (a b : number) : number := nadd a (nneg b).

(** [a * b] *)
Definition nmul (a b : number) : number :=
  match a, b with
  | Fin x, Fin y => Fin (x * y)
  | Fin x, Inf s | Inf s, Fin x =>
      if Qeq_bool x 0 then NaN else Inf (xorb s (Qlt_bool x 0))
  | Inf s, Inf t => Inf (xorb s t)
  | _, _ => NaN
  end.

(** [a / b] *)
Definition ndiv (a b : number) : number :=
  match a, b with
  | Fin x, Fin y =>
      if Qeq_bool y 0
      then (if Qeq_bool x 0 then NaN else Inf (Qlt_bool x 0))
      else Fin (x / y)
  | Fin _, Inf _ => Fin 0
  | Inf s, Fin y => Inf (xorb s (Qlt_bool y 0))
  | _, _ => NaN
  end.

(** [a > b] *)
Definition ngt (a b : number) : bool :=
  match a, b with
  | Fin x, Fin y => Qlt_bool y x
  | Fin _, Inf t => t
  | Inf s, Fin _ => negb s
  | Inf s, Inf t => negb s && t
  | _, _ => false
  end.

(** [a === b] *)
Definition nstrict_eq (a b : number) : bool :=
  match a, b with
  | Fin x, Fin y => Qeq_bool x y
  | Inf s, Inf t => Bool.eqb s t
  | Undefined, Undefined => true
  | _, _ => false
  end.

(** [Number(b)] for a boolean [b] *)
Definition Number_of_bool (b : bool) : number := Fin (if b then 1 else 0).

(** [Math.min(a, b)] *)
Definition Math_min (a b : number) : number :=
  match a, b with
  | Fin x, Fin y => Fin (if Qle_bool x y then x else y)
  | Fin x, Inf t => if t then Inf true else Fin x
  | Inf s, Fin y => if s then Inf true else Fin y
  | Inf s, Inf t => Inf (s || t)
  | _, _ => NaN
  end.

(** ** d3 (version 3) array helpers

    [d3.min(array)] and [d3.max(array)] skip every entry that is [null],
    [undefined] or [NaN] (the test is [b != null && b >= b]) and return
    [undefined] when nothing is left. *)

Definition d3_comparable (b : number) : bool :=
  match b with Fin _ | Inf _ => true | NaN | Undefined => false end.

Definition d3_min_step (a b : number) : number :=
  match a with
  | Undefined => if d3_comparable b then b else Undefined
  | _ => if d3_comparable b && ngt a b then b else a
  end.

Definition d3_min (array : list number) : number :=
  fold_left d3_min_step array Undefined.

Definition d3_max_step (a b : number) : number :=
  match a with
  | Undefined => if d3_comparable b then b else Undefined
  | _ => if d3_comparable b && ngt b a then b else a
  end.

Definition d3_max (array : list number) : number :=
  fold_left d3_max_step array Undefined.

(** [a <= b] *)
Definition nle (a b : number) : bool :=
  match a, b with
  | Fin x, Fin y => Qle_bool x y
  | Fin _, Inf t => negb t
  | Inf s, Fin _ => s
  | Inf s, Inf t => s || negb t
  | _, _ => false
  end.

(** ** Data model

    One module per TypeScript interface, so that the fields keep the names
    they have in the source. *)

Module TornadoChartSections.
Record t : Type := mk { left : Q; right : Q; isPercent : bool }.
End TornadoChartSections.

Module TornadoChartTextOptions.
(** [fontSize] holds the decimal rendering of the number read from the
    style sheet; it is only ever pasted into a font specification. *)
Record t : Type := mk { fontFamily : string; fontSize : string; sizeUnit : string }.
End TornadoChartTextOptions.

Module IMargin.
Record t : Type := mk { top : Q; right : Q; bottom : Q; left : Q }.
End IMargin.

Module IViewport.
Record t : Type := mk { height : Q; width : Q }.
End IViewport.

Inductive SelectionId : Type :=
| createWithMeasure (queryName : string).

Module TornadoChartSeries.
Record t : Type := mk {
  fill : string;
  name : string;
  values : list Q;
  selectionId : SelectionId
}.
End TornadoChartSeries.

Module IValueFormatter.
Record t : Type := mk { format : number -> string }.
End IValueFormatter.

Module TornadoChartSettings.
Record t : Type := mk {
  precision : number;
  formatter : IValueFormatter.t;
  showLabels : bool;
  showLegend : bool;
  showCategories : bool;
  labelInsideFillColour : string;
  labelOutsideFillColour : string;
  categoriesFillColour : string
}.
End TornadoChartSettings.

Inductive LegendIcon : Type := Box | Circle | Line.

Module LegendDataPoint.
Record t : Type := mk {
  label : string;
  color : string;
  icon : LegendIcon;
  selected : bool;
  identity : option SelectionId
}.
End LegendDataPoint.

Module LegendData.
Record t : Type := mk { dataPoints : list LegendDataPoint.t }.
End LegendData.

Module TornadoChartDataView.
Record t : Type := mk {
  displayName : string;
  categories : list string;
  series : list TornadoChartSeries.t;
  settings : TornadoChartSettings.t;
  legend : LegendData.t
}.
End TornadoChartDataView.

Module LabelData.
Record t : Type := mk {
  x : number;
  y : number;
  dx : number;
  dy : number;
  value : string;
  source : number;
  colour : string;
  height : number;
  width : number
}.
End LabelData.

Module TooltipDataItem.
(** [value] is [None] when the category of the row is [undefined]. *)
Record t : Type := mk { displayName : string; value : option string }.
End TooltipDataItem.

Module ColumnData.
Record t : Type := mk {
  x : number;
  y : number;
  dx : number;
  dy : number;
  px : number;
  py : number;
  angle : number;
  height : number;
  width : number;
  label : LabelData.t;
  color : string;
  tooltipData : list TooltipDataItem.t
}.
End ColumnData.

Module LineData.
Record t : Type := mk { x1 : number; y1 : number; x2 : number; y2 : number }.
End LineData.

Module TextProperties.
Record t : Type := mk { text : string; fontFamily : string; fontSize : string }.
End TextProperties.

Module TextData.
Record t : Type := mk {
  text : string;
  options : TornadoChartTextOptions.t;
  height : Q;
  width : Q;
  textProperties : TextProperties.t
}.
End TextData.

(** *** The raw data view handed over by the host

    The declarations of [DataView] are part of the host API.  A field that
    the API declares optional, or that [converter] tests before use, is an
    [option]; [None] is a missing ([undefined] or [null]) field. *)

Module DataViewObjectPropertyIdentifier.
Record t : Type := mk { objectName : string; propertyName : string }.
End DataViewObjectPropertyIdentifier.

Inductive DataViewPropertyValue : Type :=
| PropBool (b : bool)
| PropNumber (n : number)
| PropFill (color : string).

(** [objects[objectName][propertyName]], as nested association lists. *)
Definition DataViewObjects : Type :=
  list (string * list (string * DataViewPropertyValue)).

Module DataViewMetadataColumn.
Record t : Type := mk {
  displayName : string;
  queryName : string;
  objects : option DataViewObjects
}.
End DataViewMetadataColumn.

Module DataViewCategoryColumn.
Record t : Type := mk {
  source : option DataViewMetadataColumn.t;
  values : list string
}.
End DataViewCategoryColumn.

Module DataViewValueColumn.
Record t : Type := mk {
  source : DataViewMetadataColumn.t;
  values : list Q
}.
End DataViewValueColumn.

Module DataViewCategorical.
Record t : Type := mk {
  categories : option (list DataViewCategoryColumn.t);
  values : option (list DataViewValueColumn.t)
}.
End DataViewCategorical.

Module DataViewMetadata.
Record t : Type := mk {
  columns : option (list DataViewMetadataColumn.t);
  objects : option DataViewObjects
}.
End DataViewMetadata.

Module DataView.
Record t : Type := mk {
  metadata : option DataViewMetadata.t;
  categorical : option DataViewCategorical.t
}.
End DataView.

(** *** The rendered layers

    The rendering surface (d3, SVG) is outside the chart; of each element
    the chart writes to, the model keeps the attributes it sets.  An opacity
    set through a transition is recorded as the value the element ends at: a
    later transition on an element supersedes an earlier one. *)

Module ColumnElement.
Record t : Type := mk { datum : ColumnData.t; fill_opacity : Q }.
End ColumnElement.

Module LabelElement.
Record t : Type := mk {
  datum : ColumnData.t;
  x : number;
  y : number;
  display_none : bool;           (* ["none"] rather than [null] *)
  title : number;
  transform : number * number;   (* [SVGUtil.translate(dx, dy)] *)
  fill : string;
  text : string;
  fill_opacity : Q
}.
End LabelElement.

Module CategoryElement.
Record t : Type := mk {
  datum : string;
  x : number;
  y : number;
  transform : number * number;   (* [SVGUtil.translate(0, shift)] *)
  title : string;
  fill : string;
  text : string
}.
End CategoryElement.

(** References to the objects that [setSelection] compares with [!==]: the
    data objects bound to the column elements, and the elements themselves. *)
Inductive reference : Type :=
| DatumRef (index : nat)
| NodeRef (index : nat).

Definition reference_eqb (a b : reference) : bool :=
  match a, b with
  | DatumRef i, DatumRef j | NodeRef i, NodeRef j => Nat.eqb i j
  | _, _ => false
  end.

(** [a !== b], where [b] may be [undefined] ([None]). *)
Definition strict_neq (a : reference) (b : option reference) : bool :=
  match b with
  | Some r => negb (reference_eqb a r)
  | None => true
  end.

(** ** Collaborators *)

Class TextMeasurementService : Type := {
  measureSvgTextWidth : TextProperties.t -> Q;
  measureSvgTextHeight : TextProperties.t -> Q;
  getTailoredTextOrDefault : TextProperties.t -> Q -> string
}.

Class HostServices : Type := {
  (* [DataViewObjects.getValue(objects, propertyId, defaultValue)] *)
  getValue_bool :
    option DataViewObjects -> DataViewObjectPropertyIdentifier.t -> bool -> bool;
  getValue_number :
    option DataViewObjects -> DataViewObjectPropertyIdentifier.t -> number -> number;
  (* [new ColorHelper(colors, properties, defaultColor).getColorForMeasure(objects, ..)] *)
  getColorForMeasure :
    DataViewObjectPropertyIdentifier.t -> option string -> option DataViewObjects -> string;
  ValueFormatter_getFormatString :
    option DataViewMetadataColumn.t -> DataViewObjectPropertyIdentifier.t -> option string;
  (* [ValueFormatter.create({format, precision, value})] *)
  ValueFormatter_create : option string -> number -> number -> IValueFormatter.t
}.

(** ** Exceptions *)

Inductive JsError : Type := TypeError.

Inductive completion (A : Type) : Type :=
| Normal (a : A)
| Throw (e : JsError).

Arguments Normal {A} a.
Arguments Throw {A} e.

Definition bind {A B : Type} (c : completion A) (k : A -> completion B) : completion B :=
  match c with
  | Normal a => k a
  | Throw e => Throw e
  end.

Notation "x <- c ;; k" := (bind c (fun x => k))
  (at level 61, c at next level, right associativity).

(** Reading a property of [o]: a [TypeError] when [o] is [undefined]. *)
Definition property_of {A B : Type} (o : option A) (get : A -> B) : completion B :=
  match o with
  | Some a => Normal (get a)
  | None => Throw TypeError
  end.

(** ** Array helpers *)

Fixpoint mapi_from {A B : Type} (f : A -> nat -> B) (l : list A) (i : nat) : list B :=
  match l with
  | [] => []
  | a :: l' => f a i :: mapi_from f l' (S i)
  end.

(** [array.map((value, index) => ...)] *)
Definition mapi {A B : Type} (f : A -> nat -> B) (l : list A) : list B :=
  mapi_from f l 0.

Fixpoint reducei_from {A B : Type} (f : B -> A -> nat -> B) (l : list A) (i : nat) (acc : B) : B :=
  match l with
  | [] => acc
  | a :: l' => reducei_from f l' (S i) (f acc a i)
  end.

(** [array.reduce((previousValue, currentValue, index) => ..., initial)] *)
Definition reducei {A B : Type} (f : B -> A -> nat -> B) (l : list A) (initial : B) : B :=
  reducei_from f l 0 initial.

Definition number_of_nat (n : nat) : number := Fin (inject_Z (Z.of_nat n)).

(** ** The class [TornadoChart] *)

Module TornadoChart.

(** The fields of the object that the layout reads and writes. *)
Record t : Type := mk {
  sections : TornadoChartSections.t;
  currentSections : TornadoChartSections.t;
  margin : IMargin.t;
  columnPadding : Q;
  textOptions : TornadoChartTextOptions.t;
  viewport : IViewport.t;
  heightColumn : number;
  widthLeftSection : Q;
  widthRightSection : Q;
  isSelectColumn : bool
}.

Definition MinPrecision : number := Fin 0.
Definition MinOpacity : Q := 0.
Definition MinColumnOpacity : Q := 2 # 10.   (* set by the constructor: 0.2 *)
Definition MaxOpacity : Q := 1.
Definition MaxSizeSections : Q := 100.
Definition MaxSeries : nat := 2.
Definition maxLabelWidth : Q := 55.
Definition leftLabelMargin : Q := 4.
Definition InnerTextHeightDelta : Q := 2.
Definition DefaultFillColors : list string := ["purple"; "teal"]%string.

Module Properties.
Definition general_formatString :=
  DataViewObjectPropertyIdentifier.mk "general" "formatString".
Definition labels_show :=
  DataViewObjectPropertyIdentifier.mk "labels" "show".
Definition labels_labelPrecision :=
  DataViewObjectPropertyIdentifier.mk "labels" "labelPrecision".
Definition labels_insideFill :=
  DataViewObjectPropertyIdentifier.mk "labels" "insideFill".
Definition labels_outsideFill :=
  DataViewObjectPropertyIdentifier.mk "labels" "outsideFill".
Definition dataPoint_fill :=
  DataViewObjectPropertyIdentifier.mk "dataPoint" "fill".
Definition legend_show :=
  DataViewObjectPropertyIdentifier.mk "legend" "show".
Definition categories_show :=
  DataViewObjectPropertyIdentifier.mk "categories" "show".
Definition categories_fill :=
  DataViewObjectPropertyIdentifier.mk "categories" "fill".
End Properties.

(** The defaults of [DefaultTornadoChartSettings]. *)
Module DefaultTornadoChartSettings.
Definition precision : number := Fin 2.
Definition showCategories : bool := true.
Definition showLegend : bool := true.
Definition showLabels : bool := true.
Definition labelInsideFillColour : string := "#fff".
Definition labelOutsideFillColour : string := "#777".
Definition categoriesFillColour : string := "#777".
End DefaultTornadoChartSettings.

(** *** Field updates *)

Definition with_currentSections (this : t) (s : TornadoChartSections.t) : t :=
  mk (sections this) s (margin this) (columnPadding this) (textOptions this)
     (viewport this) (heightColumn this) (widthLeftSection this)
     (widthRightSection this) (isSelectColumn this).

Definition with_viewport (this : t) (v : IViewport.t) : t :=
  mk (sections this) (currentSections this) (margin this) (columnPadding this)
     (textOptions this) v (heightColumn this) (widthLeftSection this)
     (widthRightSection this) (isSelectColumn this).

Definition with_heightColumn (this : t) (h : number) : t :=
  mk (sections this) (currentSections this) (margin this) (columnPadding this)
     (textOptions this) (viewport this) h (widthLeftSection this)
     (widthRightSection this) (isSelectColumn this).

Definition with_widthSections (this : t) (l r : Q) : t :=
  mk (sections this) (currentSections this) (margin this) (columnPadding this)
     (textOptions this) (viewport this) (heightColumn this) l r
     (isSelectColumn this).

(** *** Construction *)

Module TornadoChartConstructorOptions.
Record t : Type := mk {
  margin : option IMargin.t;
  sections : option TornadoChartSections.t;
  columnPadding : option Q
}.
End TornadoChartConstructorOptions.

(** The field initialisers of the class. *)
Definition initial : t :=
  let sections := TornadoChartSections.mk 75 0 false in
  mk sections sections (IMargin.mk 10 10 10 10) 10
     (TornadoChartTextOptions.mk EmptyString EmptyString EmptyString)
     (IViewport.mk 0 0) (Fin 0) 0 0 false.

(** [options.x || this.x]: a missing option, and a padding of [0], give
    the initial value. *)
Definition constructor (options : option TornadoChartConstructorOptions.t) : t :=
  match options with
  | None => initial
  | Some o =>
      let margin' :=
        match TornadoChartConstructorOptions.margin o with
        | Some m => m | None => margin initial end in
      let sections' :=
        match TornadoChartConstructorOptions.sections o with
        | Some s => s | None => sections initial end in
      let columnPadding' :=
        match TornadoChartConstructorOptions.columnPadding o with
        | Some p => if Qeq_bool p 0 then columnPadding initial else p
        | None => columnPadding initial end in
      mk sections' sections' margin' columnPadding' (textOptions initial)
         (viewport initial) (heightColumn initial) (widthLeftSection initial)
         (widthRightSection initial) false
  end.

(** *** Sizes and sections *)

Definition setSize (this : t) (viewport : IViewport.t) : t :=
  let height :=
    IViewport.height viewport - IMargin.top (margin this) - IMargin.bottom (margin this) in
  let width :=
    IViewport.width viewport - IMargin.left (margin this) - IMargin.right (margin this) in
  with_viewport this (IViewport.mk height width).

Definition getValueByPercent (percent maxValue : Q) (isPrecent : bool) : Q :=
  if isPrecent then (percent * maxValue) / 100 else percent.

Definition updateSectionsWidth (this : t) : t :=
  with_widthSections this
    (getValueByPercent (TornadoChartSections.left (currentSections this))
       (IViewport.width (viewport this))
       (TornadoChartSections.isPercent (currentSections this)))
    (getValueByPercent (TornadoChartSections.right (currentSections this))
       (IViewport.width (viewport this))
       (TornadoChartSections.isPercent (currentSections this))).

(** [dataView] is [None] for the [null] model.  A model always carries its
    settings, so the test [!dataView.settings] never fires on one. *)
Definition updateSections (this : t) (dataView : option TornadoChartDataView.t) : t :=
  match dataView with
  | None => this
  | Some dataView =>
      let settings := TornadoChartDataView.settings dataView in
      let isPercent := TornadoChartSections.isPercent (currentSections this) in
      let left :=
        if TornadoChartSettings.showCategories settings
        then TornadoChartSections.left (sections this)
        else 0 in
      let right :=
        if isPercent
        then MaxSizeSections - left
        else IViewport.width (viewport this) - left in
      with_currentSections this (TornadoChartSections.mk left right isPercent)
  end.

(** [legendHeight] is [this.legend.getMargins().height]. *)
Definition updateViewportHeight (this : t) (legendHeight : Q) : t :=
  with_viewport this
    (IViewport.mk (IViewport.height (viewport this) - legendHeight)
                  (IViewport.width (viewport this))).

Definition computeHeightColumn (this : t) (tornadoChartDataView : TornadoChartDataView.t) : t :=
  let length := number_of_nat (List.length (TornadoChartDataView.categories tornadoChartDataView)) in
  with_heightColumn this
    (ndiv (nsub (Fin (IViewport.height (viewport this)))
                (nmul (nsub length (Fin 1)) (Fin (columnPadding this))))
          length).

(** *** Column layout *)

Section Layout.
Context {measure : TextMeasurementService}.

Definition getTextData (this : t) (text : string) (measureWidth measureHeight : bool) : TextData.t :=
  let textProperties :=
    TextProperties.mk text
      (TornadoChartTextOptions.fontFamily (textOptions this))
      (TornadoChartTextOptions.fontSize (textOptions this)
         ++ TornadoChartTextOptions.sizeUnit (textOptions this))%string in
  let width := if measureWidth then measureSvgTextWidth textProperties else 0 in
  let height := if measureHeight then measureSvgTextHeight textProperties else 0 in
  TextData.mk text (textOptions this) height width textProperties.

Definition getColumnWidth (value minValue maxValue width : number) : number :=
  if nstrict_eq minValue maxValue
  then width
  else ndiv (nmul width (nsub value minValue)) (nsub maxValue minValue).

Definition getLabelData (this : t)
    (value xColumn yColumn dxColumn dyColumn columnWidth : number)
    (isColumnPositionLeft : bool)
    (valueFormatter : IValueFormatter.t)
    (labelInsideFillColour labelOutsideFillColour : string) : LabelData.t :=
  let textData := getTextData this (IValueFormatter.format valueFormatter value) false true in
  let valueAfterValueFormatter :=
    getTailoredTextOrDefault (TextData.textProperties textData) maxLabelWidth in
  let textDataAfterValueFormatter := getTextData this valueAfterValueFormatter true false in
  let textWidth := Fin (TextData.width textDataAfterValueFormatter) in
  let inside := ngt columnWidth textWidth in
  let dx :=
    if inside
    then nsub (nadd dxColumn (ndiv columnWidth (Fin 2))) (ndiv textWidth (Fin 2))
    else if isColumnPositionLeft
         then nsub (nsub dxColumn (Fin leftLabelMargin)) textWidth
         else nadd (nadd dxColumn columnWidth) (Fin leftLabelMargin) in
  let colour := if inside then labelInsideFillColour else labelOutsideFillColour in
  LabelData.mk xColumn yColumn dx
    (nsub (nadd (nadd dyColumn (ndiv (heightColumn this) (Fin 2)))
                (ndiv (Fin (TextData.height textData)) (Fin 2)))
          (Fin InnerTextHeightDelta))
    valueAfterValueFormatter value colour
    (Fin (TextData.height textData))
    textWidth.

Definition getTooltipData (displayName : string) (categoryValue : option string)
    (seriesName value : string) : list TooltipDataItem.t :=
  [ TooltipDataItem.mk displayName categoryValue;
    TooltipDataItem.mk seriesName (Some value) ].

Definition generateColumnData (this : t)
    (value minValue maxValue width : number)
    (shiftToMiddle shiftToRight : bool)
    (color : string) (index : nat)
    (valueFormatter : IValueFormatter.t)
    (categoryValue : option string)
    (seriesName displayName labelInsideFillColour labelOutsideFillColour : string)
    : ColumnData.t :=
  let x := Fin 0 in
  let y := Fin 0 in
  let widthOfColumn := getColumnWidth value minValue maxValue width in
  let shift := nsub width widthOfColumn in
  let dx := nadd (nmul shift (Number_of_bool shiftToMiddle))
                 (nmul width (Number_of_bool shiftToRight)) in
  let dy := nmul (nadd (heightColumn this) (Fin (columnPadding this)))
                 (number_of_nat index) in
  let label :=
    getLabelData this value x y dx dy widthOfColumn shiftToMiddle valueFormatter
      labelInsideFillColour labelOutsideFillColour in
  let angle := if shiftToMiddle then Fin 180 else Fin 0 in
  ColumnData.mk x y dx dy
    (ndiv widthOfColumn (Fin 2))
    (ndiv (heightColumn this) (Fin 2))
    angle
    (heightColumn this)
    widthOfColumn
    label
    color
    (getTooltipData displayName categoryValue seriesName (LabelData.value label)).

Definition generateColumnDataByValues (this : t)
    (tornadoChartSeries : TornadoChartSeries.t)
    (minValue maxValue maxWidth : number)
    (shiftToRight shiftToMiddle : bool)
    (valueFormatter : IValueFormatter.t)
    (categories : list string)
    (seriesName displayName labelInsideFillColour labelOutsideFillColour : string)
    : list ColumnData.t :=
  mapi (fun (value : Q) (index : nat) =>
          let categoryValue := nth_error categories index in
          generateColumnData this (Fin value) minValue maxValue maxWidth
            shiftToMiddle shiftToRight
            (TornadoChartSeries.fill tornadoChartSeries)
            index valueFormatter categoryValue seriesName displayName
            labelInsideFillColour labelOutsideFillColour)
       (TornadoChartSeries.values tornadoChartSeries).

(** The head of [generateColumnDataBySeries]: the bounds [minValue] and
    [maxValue] of the scale and the width of the region of one series;
    [None] when there is no series (the function returns [[]] at once).
    The second branch is the test [series.length === this.MaxSeries]. *)
Definition seriesScale (series : list TornadoChartSeries.t) (width : Q)
    : option (number * number * Q) :=
  match series with
  | [] => None
  | series0 :: rest =>
      let minValue :=
        Math_min (d3_min (map Fin (TornadoChartSeries.values series0))) (Fin 0) in
      let maxValue := d3_max (map Fin (TornadoChartSeries.values series0)) in
      match rest with
      | [series1] =>
          Some (d3_min [minValue; d3_min (map Fin (TornadoChartSeries.values series1))],
                d3_max [maxValue; d3_max (map Fin (TornadoChartSeries.values series1))],
                width / inject_Z (Z.of_nat MaxSeries))
      | _ => Some (minValue, maxValue, width)
      end
  end.

Definition generateColumnDataBySeries (this : t)
    (tornadoChartDataView : TornadoChartDataView.t) : list ColumnData.t :=
  let categories := TornadoChartDataView.categories tornadoChartDataView in
  let series := TornadoChartDataView.series tornadoChartDataView in
  let settings := TornadoChartDataView.settings tornadoChartDataView in
  let displayName := TornadoChartDataView.displayName tornadoChartDataView in
  let valueFormatter := TornadoChartSettings.formatter settings in
  match seriesScale series (widthRightSection this) with
  | None => []
  | Some (minValue, maxValue, width) =>
      reducei
        (fun (previousValue : list ColumnData.t)
             (currentValue : TornadoChartSeries.t) (index : nat) =>
           let shiftToMiddle :=
             Nat.eqb index 0 && Nat.eqb (List.length series) MaxSeries in
           let shiftToRight := Nat.eqb index 1 in
           let seriesName := TornadoChartSeries.name currentValue in
           previousValue ++
           generateColumnDataByValues this currentValue minValue maxValue
             (Fin width) shiftToRight shiftToMiddle valueFormatter categories
             seriesName displayName
             (TornadoChartSettings.labelInsideFillColour settings)
             (TornadoChartSettings.labelOutsideFillColour settings))
        series []
  end.

Definition generateAxesData (this : t) : list LineData.t :=
  let x := Fin (widthRightSection this / 2) in
  let y1 := Fin 0 in
  let y2 := Fin (IViewport.height (viewport this)) in
  [ LineData.mk x y1 x y2 ].

End Layout.

(** *** Labels layer *)

(** [setOpacity(element, opacityValue)] on the labels layer. *)
Definition setOpacity_labels (elements : list LabelElement.t) (opacityValue : Q)
    : list LabelElement.t :=
  map (fun e =>
         LabelElement.mk (LabelElement.datum e) (LabelElement.x e) (LabelElement.y e)
           (LabelElement.display_none e) (LabelElement.title e)
           (LabelElement.transform e) (LabelElement.fill e) (LabelElement.text e)
           opacityValue)
      elements.

(** After [data(columnsData)], [enter] and [exit] the layer holds one
    element per column; every attribute of every element is written. *)
Definition renderLabels (this : t) (columnsData : list ColumnData.t)
    (settings : TornadoChartSettings.t) : list LabelElement.t :=
  let height :=
    match columnsData with
    | column0 :: _ => LabelData.height (ColumnData.label column0)
    | [] => Fin 0
    end in
  let labelSelection :=
    map (fun item : ColumnData.t =>
           let label := ColumnData.label item in
           let leftBorder := Fin 0 in
           let rightBorder := Fin (TornadoChartSections.right (currentSections this)) in
           let x := nadd (LabelData.x label) (LabelData.dx label) in
           let shown := ngt x leftBorder && ngt rightBorder (nadd x (LabelData.width label)) in
           LabelElement.mk item (LabelData.x label) (LabelData.y label)
             (negb shown)
             (LabelData.source label)
             (LabelData.dx label, LabelData.dy label)
             (LabelData.colour label)
             (LabelData.value label)
             MaxOpacity)
        columnsData in
  if negb (TornadoChartSettings.showLabels settings) || ngt height (heightColumn this)
  then setOpacity_labels labelSelection MinOpacity
  else setOpacity_labels labelSelection MaxOpacity.

(** *** Selection *)

(** A d3 selection of column elements, as the indices of its elements. *)
Definition selection : Type := list nat.

(** [columnElements[index]] *)
Definition columnElement_at (columns : list ColumnElement.t) (index : nat) : option reference :=
  if Nat.ltb index (List.length columns) then Some (NodeRef index) else None.

(** [d3.select(node)]: the selection of no element when [node] is
    [undefined]. *)
Definition d3_select (node : option reference) : selection :=
  match node with
  | Some (NodeRef index) => [index]
  | _ => []
  end.

(** [columns.filter(f)]: [f] receives the datum bound to each element. *)
Definition d3_filter (columns : list ColumnElement.t) (f : reference -> bool) : selection :=
  filter (fun index => f (DatumRef index)) (seq 0 (List.length columns)).

(** [setOpacity(element, opacityValue)] on a selection of columns. *)
Definition setOpacity (columns : list ColumnElement.t) (element : selection)
    (opacityValue : Q) : list ColumnElement.t :=
  mapi (fun (e : ColumnElement.t) (index : nat) =>
          if existsb (Nat.eqb index) element
          then ColumnElement.mk (ColumnElement.datum e) opacityValue
          else e)
       columns.

Definition setSelection (currentIndexOfColumn : nat)
    (columns : list ColumnElement.t) (selectSecondSeries : bool)
    : list ColumnElement.t :=
  let quantityOfColumns := List.length columns in
  let shift := Nat.div quantityOfColumns 2 in
  let index :=
    if selectSecondSeries
    then if Nat.ltb currentIndexOfColumn shift
         then (currentIndexOfColumn + shift)%nat
         else (currentIndexOfColumn - shift)%nat
    else currentIndexOfColumn in
  let columns1 :=
    setOpacity columns
      (d3_filter columns
         (fun item =>
            strict_neq item (columnElement_at columns index)
            || strict_neq item (columnElement_at columns currentIndexOfColumn)))
      MinColumnOpacity in
  let columns2 :=
    setOpacity columns1 (d3_select (columnElement_at columns currentIndexOfColumn))
      MaxOpacity in
  if selectSecondSeries
  then setOpacity columns2 (d3_select (columnElement_at columns index)) MaxOpacity
  else columns2.

(** The click handler that [renderColumns] puts on every column. *)
Definition column_click (this : t) (index : nat)
    (columnsSelection : list ColumnElement.t) (selectSecondSeries : bool)
    : t * list ColumnElement.t :=
  (mk (sections this) (currentSections this) (margin this) (columnPadding this)
      (textOptions this) (viewport this) (heightColumn this)
      (widthLeftSection this) (widthRightSection this) true,
   setSelection index columnsSelection selectSecondSeries).

(** The click handler that [renderColumns] puts on the document.  It
    writes the opacity without a transition ([disableAnimation]), which does
    not stop a transition that [setSelection] started: while such
    transitions are running ([transitionsRunning]) every column still ends
    at the opacity its transition aims at, and the write is lost.  Without
    an animator, or once the transitions have ended, the write stays. *)
Definition document_click (this : t) (columnsElements : list ColumnElement.t)
    (transitionsRunning : bool) : t * list ColumnElement.t :=
  if isSelectColumn this
  then (mk (sections this) (currentSections this) (margin this) (columnPadding this)
           (textOptions this) (viewport this) (heightColumn this)
           (widthLeftSection this) (widthRightSection this) false,
        if transitionsRunning
        then columnsElements
        else setOpacity columnsElements (seq 0 (List.length columnsElements)) MaxOpacity)
  else (this, columnsElements).

(** *** Data normalisation *)

Section Normalizer.
Context {host : HostServices}.

Definition getColor (properties : DataViewObjectPropertyIdentifier.t)
    (defaultColor : option string) (objects : option DataViewObjects) : string :=
  getColorForMeasure properties defaultColor objects.

Definition getPrecision (objects : option DataViewObjects) : number :=
  let precision :=
    getValue_number objects Properties.labels_labelPrecision
      DefaultTornadoChartSettings.precision in
  if nle precision MinPrecision then MinPrecision else precision.

Definition getObjectsFromDataView (dataView : option DataView.t) : option DataViewObjects :=
  match dataView with
  | None => None
  | Some dataView =>
      match DataView.metadata dataView with
      | None => None
      | Some metadata =>
          match DataViewMetadata.columns metadata, DataViewMetadata.objects metadata with
          | Some _, Some objects => Some objects
          | _, _ => None
          end
      end
  end.

(** [parseSettings] reads [dataView.categorical.categories[0].source] without
    a test of its own. *)
Definition parseSettings (dataView : DataView.t) (objects : option DataViewObjects)
    (value : number) : completion TornadoChartSettings.t :=
  let precision := getPrecision objects in
  categories <- property_of (DataView.categorical dataView) DataViewCategorical.categories ;;
  category0 <- property_of categories (fun array => nth_error array 0) ;;
  source <- property_of category0 DataViewCategoryColumn.source ;;
  let valueFormatter :=
    ValueFormatter_create
      (ValueFormatter_getFormatString source Properties.general_formatString)
      precision value in
  Normal
    (TornadoChartSettings.mk precision valueFormatter
       (getValue_bool objects Properties.labels_show DefaultTornadoChartSettings.showLabels)
       (getValue_bool objects Properties.legend_show DefaultTornadoChartSettings.showLegend)
       (getValue_bool objects Properties.categories_show
          DefaultTornadoChartSettings.showCategories)
       (getColor Properties.labels_insideFill
          (Some DefaultTornadoChartSettings.labelInsideFillColour) objects)
       (getColor Properties.labels_outsideFill
          (Some DefaultTornadoChartSettings.labelOutsideFillColour) objects)
       (getColor Properties.categories_fill
          (Some DefaultTornadoChartSettings.categoriesFillColour) objects)).

Definition parseSeries (dataViewValueColumn : list DataViewValueColumn.t)
    : list TornadoChartSeries.t :=
  mapi (fun (dataViewValueColumn : DataViewValueColumn.t) (index : nat) =>
          let source := DataViewValueColumn.source dataViewValueColumn in
          let colour :=
            getColor Properties.dataPoint_fill (nth_error DefaultFillColors index)
              (DataViewMetadataColumn.objects source) in
          TornadoChartSeries.mk colour
            (DataViewMetadataColumn.displayName source)
            (DataViewValueColumn.values dataViewValueColumn)
            (createWithMeasure (DataViewMetadataColumn.queryName source)))
       dataViewValueColumn.

Definition getLegendData (series : list TornadoChartSeries.t) : LegendData.t :=
  LegendData.mk
    (map (fun item : TornadoChartSeries.t =>
            LegendDataPoint.mk (TornadoChartSeries.name item)
              (TornadoChartSeries.fill item) Box false None)
         series).

(** [array[0]] of an array of numbers: [undefined] when the array is empty. *)
Definition first_number (array : list Q) : number :=
  match nth_error array 0 with
  | Some q => Fin q
  | None => Undefined
  end.

(** [None] as argument is a [null] or [undefined] data view; [Normal None] is
    the [null] model. *)
Definition converter (dataView : option DataView.t)
    : completion (option TornadoChartDataView.t) :=
  match dataView with
  | None => Normal None
  | Some dv =>
  match DataView.categorical dv with
  | None => Normal None
  | Some categorical =>
  match DataViewCategorical.categories categorical with
  | None => Normal None
  | Some categoryColumns =>
  match nth_error categoryColumns 0 with
  | None => Normal None
  | Some category0 =>
  match DataViewCategoryColumn.source category0 with
  | None => Normal None
  | Some source =>
  match DataViewCategorical.values categorical with
  | None => Normal None
  | Some valueColumns =>
      let values := firstn MaxSeries valueColumns in
      let categories := DataViewCategoryColumn.values category0 in
      let displayName := DataViewMetadataColumn.displayName source in
      let objects := getObjectsFromDataView dataView in
      value <- property_of (nth_error values 0)
                 (fun column => first_number (DataViewValueColumn.values column)) ;;
      settings <- parseSettings dv objects value ;;
      let series := parseSeries values in
      Normal (Some (TornadoChartDataView.mk displayName categories series settings
                      (getLegendData series)))
  end end end end end end.

End Normalizer.

(** *** Axis and categories *)

(** The lines of the axes layer: none ([axesElements.remove()]) unless the
    chart has exactly [MaxSeries] series. *)
Definition renderAxes (this : t) (tornadoChartDataView : TornadoChartDataView.t)
    : list LineData.t :=
  if negb (Nat.eqb (List.length (TornadoChartDataView.series tornadoChartDataView)) MaxSeries)
  then []
  else generateAxesData this.

Section Categories.
Context {measure : TextMeasurementService}.


End Categories.

End TornadoChart.

(** ** Equality of numbers up to the value of a finite number *)

Definition num_eqb (a b : number) : bool :=
  match a, b with
  | Fin x, Fin y => Qeq_bool x y
  | Inf s, Inf t => Bool.eqb s t
  | NaN, NaN => true
  | Undefined, Undefined => true
  | _, _ => false
  end.

Definition num_eq (a b : number) : Prop := num_eqb a b = true.

(** ** The mirrored column of the selection, in the words of the specification *)

Definition mirror (c i : nat) : nat :=
  let half := Nat.div c 2 in
  if Nat.ltb i half then (i + half)%nat else (i - half)%nat.

(** ** The placement of a label, in the words of the specification *)




(** ** The columns of one series

    The body of the function that [generateColumnDataBySeries] folds over the
    series, without the accumulator: the columns of the series
    [currentValue] at position [index], given the scale. *)
Definition columnsOfSeries {measure : TextMeasurementService} (this : TornadoChart.t)
    (dataView : TornadoChartDataView.t) (minValue maxValue : number) (width : Q)
    (currentValue : TornadoChartSeries.t) (index : nat) : list ColumnData.t :=
  let settings := TornadoChartDataView.settings dataView in
  TornadoChart.generateColumnDataByValues this currentValue minValue maxValue (Fin width)
    (Nat.eqb index 1)
    (Nat.eqb index 0
     && Nat.eqb (List.length (TornadoChartDataView.series dataView)) TornadoChart.MaxSeries)
    (TornadoChartSettings.formatter settings)
    (TornadoChartDataView.categories dataView)
    (TornadoChartSeries.name currentValue)
    (TornadoChartDataView.displayName dataView)
    (TornadoChartSettings.labelInsideFillColour settings)
    (TornadoChartSettings.labelOutsideFillColour settings).

(** ** The guard of [converter]

    What the guard lets through: the first category column,
    its source and the array of value columns. *)
Definition guarded (dataView : option DataView.t)
    : option (DataView.t * DataViewCategoryColumn.t * DataViewMetadataColumn.t
              * list DataViewValueColumn.t) :=
  match dataView with
  | None => None
  | Some dv =>
      match DataView.categorical dv with
      | None => None
      | Some categorical =>
          match DataViewCategorical.categories categorical,
                DataViewCategorical.values categorical with
          | Some categoryColumns, Some valueColumns =>
              match nth_error categoryColumns 0 with
              | Some category0 =>
                  match DataViewCategoryColumn.source category0 with
                  | Some source => Some (dv, category0, source, valueColumns)
                  | None => None
                  end
              | None => None
              end
          | _, _ => None
          end
      end
  end.

(** ** The scale of the bars in binary64

    [getColumnWidth] once more, on the doubles of the source: the same
    expression, with the operations of IEEE 754 binary64. *)

Module Binary64.
Import PrimFloat.
Local Open Scope float_scope.

Definition getColumnWidth (value minValue maxValue width : float) : float :=
  if PrimFloat.eqb minValue maxValue
  then width
  else width * (value - minValue) / (maxValue - minValue).

(** The double nearest to 1.81, and the double nearest to 1e308. *)
Definition one_point_eighty_one : float := 0x1.cf5c28f5c28f6p+0.
Definition ten_to_the_308 : float := 0x1.1ccf385ebc8ap+1023.
Definition zero : float := 0.
Definition region_305 : float := 305.
Definition region_100 : float := 100.

End Binary64.

(** ** Sample collaborators and data *)

(** Every glyph is 7 wide and 12 high; nothing is ever truncated. *)
Definition monospace : TextMeasurementService := {|
  measureSvgTextWidth := fun p =>
    7 * inject_Z (Z.of_nat (String.length (TextProperties.text p)));
  measureSvgTextHeight := fun _ => 12;
  getTailoredTextOrDefault := fun p _ => TextProperties.text p
|}.

(** A measurement whose line height depends on the glyphs of the text: the
    text ["20"] needs a fallback font that is 40 high. *)
Definition fallbackFont : TextMeasurementService := {|
  measureSvgTextWidth := fun p =>
    7 * inject_Z (Z.of_nat (String.length (TextProperties.text p)));
  measureSvgTextHeight := fun p =>
    if String.eqb (TextProperties.text p) "20" then 40 else 12;
  getTailoredTextOrDefault := fun p _ => TextProperties.text p
|}.

(** A host without any override: every property has its default. *)
Definition plainHost : HostServices := {|
  getValue_bool := fun _ _ defaultValue => defaultValue;
  getValue_number := fun _ _ defaultValue => defaultValue;
  getColorForMeasure := fun _ defaultColor _ =>
    match defaultColor with Some c => c | None => "black"%string end;
  ValueFormatter_getFormatString := fun _ _ => None;
  ValueFormatter_create := fun _ _ _ =>
    IValueFormatter.mk
      (fun n =>
         if nstrict_eq n (Fin 10) then "10"
         else if nstrict_eq n (Fin 20) then "20"
         else if nstrict_eq n (Fin 5) then "5"
         else "n")%string
|}.

Definition sampleSettings (showCategories : bool) : TornadoChartSettings.t :=
  TornadoChartSettings.mk (Fin 2)
    (@ValueFormatter_create plainHost None (Fin 2) (Fin 10))
    true true showCategories "#fff" "#777" "#777".

Definition sampleSeries (name : string) (values : list Q) : TornadoChartSeries.t :=
  TornadoChartSeries.mk "purple" name values (createWithMeasure name).

Definition sampleModel (showCategories : bool) (categories : list string)
    (series : list TornadoChartSeries.t) : TornadoChartDataView.t :=
  TornadoChartDataView.mk "Category" categories series (sampleSettings showCategories)
    (LegendData.mk []).

Definition twoSeriesModel : TornadoChartDataView.t :=
  sampleModel true ["A"; "B"]%string
    [sampleSeries "Sales" [10; -5]; sampleSeries "Costs" [20; 15]].

Definition oneSeriesModel : TornadoChartDataView.t :=
  sampleModel true ["A"; "B"]%string [sampleSeries "Sales" [5; 5]].

(** A model whose series differ in length: two values and one value. *)
Definition unevenModel : TornadoChartDataView.t :=
  sampleModel true ["A"; "B"]%string
    [sampleSeries "Sales" [10; -5]; sampleSeries "Costs" [20]].

(** A model without any row: no category, and a series without values. *)
Definition emptyModel : TornadoChartDataView.t :=
  sampleModel true [] [sampleSeries "Sales" []].

(** The chart with its default options on a viewport of [width] by [height],
    after the sizing steps of [update] and the row height of [render], for
    the model [dataView] and a legend of no height. *)
Definition laidOut (width height : Q) (dataView : TornadoChartDataView.t) : TornadoChart.t :=
  let this := TornadoChart.constructor None in
  let this := TornadoChart.setSize this (IViewport.mk height width) in
  let this := TornadoChart.updateSections this (Some dataView) in
  let this := TornadoChart.updateSectionsWidth this in
  let this := TornadoChart.updateViewportHeight this 0 in
  TornadoChart.computeHeightColumn this dataView.

Definition sampleColumn (opacity : Q) : ColumnElement.t :=
  ColumnElement.mk
    (ColumnData.mk (Fin 0) (Fin 0) (Fin 0) (Fin 0) (Fin 0) (Fin 0) (Fin 0) (Fin 0) (Fin 0)
       (LabelData.mk (Fin 0) (Fin 0) (Fin 0) (Fin 0) "n" (Fin 0) "#fff" (Fin 0) (Fin 0))
       "purple" [])
    opacity.

Definition sampleCategoryColumn : DataViewCategoryColumn.t :=
  DataViewCategoryColumn.mk
    (Some (DataViewMetadataColumn.mk "Category" "Table.Category" None))
    ["A"; "B"]%string.

Definition sampleValueColumn (name : string) (values : list Q) : DataViewValueColumn.t :=
  DataViewValueColumn.mk (DataViewMetadataColumn.mk name name None) values.

(** A data view that has its category column but an empty array of value
    columns, as when no measure is bound yet. *)
Definition dataViewWithoutMeasure : DataView.t :=
  DataView.mk None
    (Some (DataViewCategorical.mk (Some [sampleCategoryColumn]) (Some []))).

Definition dataViewWithMeasures (valueColumns : list DataViewValueColumn.t) : DataView.t :=
  DataView.mk None
    (Some (DataViewCategorical.mk (Some [sampleCategoryColumn]) (Some valueColumns))).

(** * Properties *)

(** ** Arithmetic of finite numbers *)

Lemma Qlt_bool_iff (x y : Q) : Qlt_bool x y = true <-> x < y.
Proof.
  unfold Qlt_bool. rewrite negb_true_iff.
  split; intro H.
  - apply Qnot_le_lt. intro Hle. apply Qle_bool_iff in Hle. congruence.
  - destruct (Qle_bool y x) eqn:E; [|reflexivity].
    apply Qle_bool_iff in E. exfalso. apply (Qlt_not_le _ _ H E).
Qed.

Lemma Qlt_bool_false_iff (x y : Q) : Qlt_bool x y = false <-> y <= x.
Proof.
  unfold Qlt_bool. rewrite negb_false_iff. apply Qle_bool_iff.
Qed.

Lemma Qeq_bool_false_iff (x y : Q) : Qeq_bool x y = false <-> ~ x == y.
Proof.
  split.
  - apply Qeq_bool_neq.
  - intro H. destruct (Qeq_bool x y) eqn:E; [|reflexivity].
    apply Qeq_bool_iff in E. contradiction.
Qed.

Lemma num_eq_Fin (x y : Q) : num_eq (Fin x) (Fin y) <-> x == y.
Proof. unfold num_eq. simpl. apply Qeq_bool_iff. Qed.

Lemma num_eq_refl (a : number) : num_eq a a.
Proof.
  destruct a as [x|s| |]; unfold num_eq; simpl; try reflexivity.
  - apply Qeq_bool_iff. reflexivity.
  - apply Bool.eqb_reflx.
Qed.

Lemma inject_nat_pos (n : nat) : (1 <= n)%nat -> 0 < inject_Z (Z.of_nat n).
Proof.
  intro H. change 0 with (inject_Z 0). rewrite <- Zlt_Qlt. lia.
Qed.

Lemma ndiv_Fin_nonzero (x y : Q) : ~ y == 0 -> ndiv (Fin x) (Fin y) = Fin (x / y).
Proof.
  intro H. simpl. apply Qeq_bool_false_iff in H. rewrite H. reflexivity.
Qed.

Lemma ndiv_Fin_zero (x : Q) : is_finite (ndiv (Fin x) (Fin 0)) = false.
Proof.
  simpl. destruct (Qeq_bool x 0); reflexivity.
Qed.

(** ** Row height *)

Section RowHeight.
Variable this : TornadoChart.t.
Variable dataView : TornadoChartDataView.t.

Let count : nat := List.length (TornadoChartDataView.categories dataView).
Let chartHeight : Q := IViewport.height (TornadoChart.viewport this).
Let padding : Q := TornadoChart.columnPadding this.

Lemma computeHeightColumn_value :
  TornadoChart.heightColumn (TornadoChart.computeHeightColumn this dataView)
  = ndiv (Fin (chartHeight + - ((inject_Z (Z.of_nat count) + - 1) * padding)))
         (Fin (inject_Z (Z.of_nat count))).
Proof. reflexivity. Qed.

(** C3.  With at least one category, the row height [h] that
    [computeHeightColumn] stores is a finite number and the rows and the
    paddings between them fill the chart height exactly:
    [h * n + (n - 1) * columnPadding == chartHeight]. *)
Theorem computeHeightColumn_partitions_height :
  (1 <= count)%nat ->
  exists rowHeight : Q,
    TornadoChart.heightColumn (TornadoChart.computeHeightColumn this dataView)
      = Fin rowHeight
    /\ rowHeight * inject_Z (Z.of_nat count)
       + (inject_Z (Z.of_nat count) - 1) * padding == chartHeight.
Proof.
  intro Hn. pose proof (inject_nat_pos count Hn) as Hpos.
  assert (Hnz : ~ inject_Z (Z.of_nat count) == 0) by lra.
  rewrite computeHeightColumn_value, (ndiv_Fin_nonzero _ _ Hnz).
  eexists. split; [reflexivity|]. field. exact Hnz.
Qed.

(** C10.  The division of [computeHeightColumn] has no guard.  With at
    least one category its divisor is not zero and the row height is a
    finite number; with no category the row height is not a finite number. *)
Theorem computeHeightColumn_division :
  ((1 <= count)%nat ->
     ~ inject_Z (Z.of_nat count) == 0
     /\ is_finite (TornadoChart.heightColumn
                     (TornadoChart.computeHeightColumn this dataView)) = true)
  /\ (count = 0%nat ->
     is_finite (TornadoChart.heightColumn
                  (TornadoChart.computeHeightColumn this dataView)) = false).
Proof.
  split.
  - intro Hn. pose proof (inject_nat_pos count Hn) as Hpos.
    assert (Hnz : ~ inject_Z (Z.of_nat count) == 0) by lra.
    split; [exact Hnz|].
    rewrite computeHeightColumn_value, (ndiv_Fin_nonzero _ _ Hnz). reflexivity.
  - intro H0. rewrite computeHeightColumn_value, H0. apply ndiv_Fin_zero.
Qed.

End RowHeight.

(** ** Bar width *)

Lemma getColumnWidth_degenerate (value : number) (minValue maxValue : Q) (width : number) :
  minValue == maxValue ->
  TornadoChart.getColumnWidth value (Fin minValue) (Fin maxValue) width = width.
Proof.
  intro H. unfold TornadoChart.getColumnWidth. simpl.
  apply Qeq_bool_iff in H. rewrite H. reflexivity.
Qed.

Lemma getColumnWidth_scaled (value minValue maxValue width : Q) :
  ~ minValue == maxValue ->
  ~ maxValue + - minValue == 0
  /\ TornadoChart.getColumnWidth (Fin value) (Fin minValue) (Fin maxValue) (Fin width)
     = Fin (width * (value + - minValue) / (maxValue + - minValue)).
Proof.
  intro H. assert (Hden : ~ maxValue + - minValue == 0) by (intro E; apply H; lra).
  split; [exact Hden|].
  unfold TornadoChart.getColumnWidth. simpl nstrict_eq.
  apply Qeq_bool_false_iff in H. rewrite H.
  unfold nsub. simpl nneg. simpl nadd. simpl nmul.
  apply ndiv_Fin_nonzero. exact Hden.
Qed.

Lemma getColumnWidth_finite (value minValue maxValue width : Q) :
  exists columnWidth : Q,
    TornadoChart.getColumnWidth (Fin value) (Fin minValue) (Fin maxValue) (Fin width)
    = Fin columnWidth.
Proof.
  destruct (Qeq_dec minValue maxValue) as [E|E].
  - exists width. apply getColumnWidth_degenerate. exact E.
  - eexists. apply (getColumnWidth_scaled value minValue maxValue width E).
Qed.

Lemma scaled_width_bounds (value minValue maxValue width : Q) :
  minValue <= value <= maxValue -> ~ minValue == maxValue -> 0 <= width ->
  0 <= width * (value + - minValue) / (maxValue + - minValue) <= width.
Proof.
  intros [Hlo Hhi] Hne Hw.
  assert (Hpos : 0 < maxValue + - minValue).
  { destruct (Qlt_le_dec minValue maxValue) as [L|L]; [lra|].
    exfalso. apply Hne. lra. }
  split.
  - apply Qle_shift_div_l; [exact Hpos|].
    setoid_replace (0 * (maxValue + - minValue)) with 0 by ring.
    apply Qmult_le_0_compat; lra.
  - apply Qle_shift_div_r; [exact Hpos|].
    rewrite (Qmult_comm width (value + - minValue)),
            (Qmult_comm width (maxValue + - minValue)).
    apply Qmult_le_compat_r; lra.
Qed.

Lemma getColumnWidth_bounds (value minValue maxValue regionWidth : Q) :
  minValue <= value <= maxValue -> 0 <= regionWidth ->
  exists width : Q,
    TornadoChart.getColumnWidth (Fin value) (Fin minValue) (Fin maxValue)
      (Fin regionWidth) = Fin width
    /\ 0 <= width <= regionWidth.
Proof.
  intros Hv Hw. destruct (Qeq_dec minValue maxValue) as [E|E].
  - exists regionWidth. split; [apply getColumnWidth_degenerate; exact E | lra].
  - destruct (getColumnWidth_scaled value minValue maxValue regionWidth E) as [_ ->].
    eexists. split; [reflexivity|].
    apply scaled_width_bounds; assumption.
Qed.

(** C1 (as amended).  In exact arithmetic, before the rounding and the
    overflow of binary64: for a region that is not of negative width and a
    value between the bounds, the width of the bar is a number between [0]
    and the width of the region, and when the bounds differ the divisor
    [maxValue - minValue] is not zero.  Whatever the arithmetic: when the
    bounds are equal every value gets the width of the region and nothing is
    divided, and when they differ the width is the quotient
    [regionWidth * (value - minValue) / (maxValue - minValue)]. *)
Theorem getColumnWidth_within_region (minValue maxValue regionWidth : Q) :
  (forall value : Q,
      minValue <= value <= maxValue -> 0 <= regionWidth ->
      exists width : Q,
        TornadoChart.getColumnWidth (Fin value) (Fin minValue) (Fin maxValue)
          (Fin regionWidth) = Fin width
        /\ 0 <= width <= regionWidth)
  /\ (minValue == maxValue ->
      forall value : number,
        TornadoChart.getColumnWidth value (Fin minValue) (Fin maxValue)
          (Fin regionWidth) = Fin regionWidth)
  /\ (~ minValue == maxValue ->
      ~ maxValue + - minValue == 0
      /\ forall value : Q,
           TornadoChart.getColumnWidth (Fin value) (Fin minValue) (Fin maxValue)
             (Fin regionWidth)
           = ndiv (nmul (Fin regionWidth) (nsub (Fin value) (Fin minValue)))
                  (nsub (Fin maxValue) (Fin minValue))).
Proof.
  split; [|split].
  - intros value Hv Hw. apply getColumnWidth_bounds; assumption.
  - intros E value. apply getColumnWidth_degenerate. exact E.
  - intro E. split.
    + intro H. apply E. lra.
    + intro value. unfold TornadoChart.getColumnWidth. simpl nstrict_eq.
      apply Qeq_bool_false_iff in E. rewrite E. reflexivity.
Qed.

Lemma getColumnWidth_within_region_witness :
  (exists width : Q,
      TornadoChart.getColumnWidth (Fin 10) (Fin (-5)) (Fin 20) (Fin (305 # 2)) = Fin width
      /\ 0 <= width <= 305 # 2)
  /\ TornadoChart.getColumnWidth (Fin 7) (Fin 5) (Fin 5) (Fin 305) = Fin 305
  /\ ~ 20 + - (-5) == 0.
Proof.
  split; [|split].
  - apply (proj1 (getColumnWidth_within_region (-5) 20 (305 # 2)) 10).
    + split; unfold Qle; simpl; lia.
    + unfold Qle; simpl; lia.
  - apply (proj1 (proj2 (getColumnWidth_within_region 5 5 305))).
    reflexivity.
  - apply (proj2 (proj2 (getColumnWidth_within_region (-5) 20 (305 # 2)))).
    unfold Qeq. simpl. lia.
Defined.

(** C1 as stated fails in three ways.  On a narrow viewport: with the
    default sections (75 pixels of categories) a viewport 50 wide leaves a
    region of width [-45], and the bar of the value 5 between the bounds 0
    and 5 is as wide as that region, below 0.  By rounding: in binary64 the
    bar of the value 1.81 between the bounds 0 and 1.81, in a region 305
    wide, is 305.00000000000006 wide, more than the region.  By overflow:
    in binary64 the bar of the value 1e308 between the bounds -1e308 and
    1e308 has the width [NaN]. *)
Lemma getColumnWidth_outside_region :
  (let this := laidOut 50 200 oneSeriesModel in
   let regionWidth := TornadoChart.widthRightSection this in
   TornadoChart.seriesScale (TornadoChartDataView.series oneSeriesModel) regionWidth
     = Some (Fin 0, Fin 5, regionWidth)
   /\ 0 <= 5 <= 5
   /\ ~ (exists width : Q,
           TornadoChart.getColumnWidth (Fin 5) (Fin 0) (Fin 5) (Fin regionWidth) = Fin width
           /\ 0 <= width <= regionWidth))
  /\ (PrimFloat.leb Binary64.zero Binary64.one_point_eighty_one = true
      /\ PrimFloat.leb Binary64.one_point_eighty_one Binary64.one_point_eighty_one = true
      /\ PrimFloat.leb Binary64.zero Binary64.region_305 = true
      /\ PrimFloat.ltb Binary64.region_305
           (Binary64.getColumnWidth Binary64.one_point_eighty_one Binary64.zero
              Binary64.one_point_eighty_one Binary64.region_305) = true)
  /\ PrimFloat.is_nan
       (Binary64.getColumnWidth Binary64.ten_to_the_308
          (PrimFloat.opp Binary64.ten_to_the_308) Binary64.ten_to_the_308
          Binary64.region_100) = true.
Proof.
  split; [|split].
  - intros this regionWidth.
    assert (Hneg : regionWidth < 0) by (vm_compute; reflexivity).
    split; [vm_compute; reflexivity|].
    split; [split; unfold Qle; simpl; lia|].
    intros [width [_ [H0 Hle]]].
    apply (Qlt_not_le _ _ Hneg). apply (Qle_trans _ width); assumption.
  - repeat split; vm_compute; reflexivity.
  - vm_compute. reflexivity.
Qed.

Lemma computeHeightColumn_partitions_height_witness :
  exists rowHeight : Q,
    TornadoChart.heightColumn
      (TornadoChart.computeHeightColumn (laidOut 400 200 twoSeriesModel) twoSeriesModel)
      = Fin rowHeight
    /\ rowHeight * inject_Z (Z.of_nat 2) + (inject_Z (Z.of_nat 2) - 1) * 10 == 180.
Proof.
  apply (computeHeightColumn_partitions_height (laidOut 400 200 twoSeriesModel) twoSeriesModel).
  simpl. lia.
Defined.

Lemma computeHeightColumn_division_witness :
  (~ inject_Z (Z.of_nat 2) == 0
   /\ is_finite (TornadoChart.heightColumn
                   (TornadoChart.computeHeightColumn (laidOut 400 200 twoSeriesModel)
                      twoSeriesModel)) = true)
  /\ is_finite (TornadoChart.heightColumn
                  (TornadoChart.computeHeightColumn (laidOut 400 200 emptyModel)
                     emptyModel)) = false.
Proof.
  split.
  - apply (proj1 (computeHeightColumn_division (laidOut 400 200 twoSeriesModel) twoSeriesModel)).
    simpl. lia.
  - apply (proj2 (computeHeightColumn_division (laidOut 400 200 emptyModel) emptyModel)).
    reflexivity.
Defined.

(** ** Bounds of the scale *)

Lemma d3_min_from (l : list Q) :
  forall a : Q,
  exists m : Q,
    fold_left d3_min_step (map Fin l) (Fin a) = Fin m
    /\ (m = a \/ In m l) /\ m <= a /\ (forall v, In v l -> m <= v).
Proof.
  induction l as [|b l IH]; intro a; simpl.
  - exists a. repeat split; [now left | lra | intros v []].
  - destruct (Qlt_bool b a) eqn:E.
    + apply Qlt_bool_iff in E.
      destruct (IH b) as [m [Hm [Hin [Hle Hall]]]].
      exists m. split; [exact Hm|]. split; [|split].
      * right. destruct Hin as [->|Hin]; [now left | now right].
      * lra.
      * intros v [<-|Hv]; [exact Hle | now apply Hall].
    + apply Qlt_bool_false_iff in E.
      destruct (IH a) as [m [Hm [Hin [Hle Hall]]]].
      exists m. split; [exact Hm|]. split; [|split].
      * destruct Hin as [->|Hin]; [now left | right; now right].
      * exact Hle.
      * intros v [<-|Hv]; [lra | now apply Hall].
Qed.

Lemma d3_max_from (l : list Q) :
  forall a : Q,
  exists m : Q,
    fold_left d3_max_step (map Fin l) (Fin a) = Fin m
    /\ (m = a \/ In m l) /\ a <= m /\ (forall v, In v l -> v <= m).
Proof.
  induction l as [|b l IH]; intro a; simpl.
  - exists a. repeat split; [now left | lra | intros v []].
  - destruct (Qlt_bool a b) eqn:E.
    + apply Qlt_bool_iff in E.
      destruct (IH b) as [m [Hm [Hin [Hle Hall]]]].
      exists m. split; [exact Hm|]. split; [|split].
      * right. destruct Hin as [->|Hin]; [now left | now right].
      * lra.
      * intros v [<-|Hv]; [exact Hle | now apply Hall].
    + apply Qlt_bool_false_iff in E.
      destruct (IH a) as [m [Hm [Hin [Hle Hall]]]].
      exists m. split; [exact Hm|]. split; [|split].
      * destruct Hin as [->|Hin]; [now left | right; now right].
      * exact Hle.
      * intros v [<-|Hv]; [lra | now apply Hall].
Qed.

(** [d3.min] of an array of finite numbers: [undefined] for the empty array,
    else the least entry. *)
Lemma d3_min_values (l : list Q) :
  (l = [] /\ d3_min (map Fin l) = Undefined)
  \/ exists m : Q, d3_min (map Fin l) = Fin m /\ In m l /\ (forall v, In v l -> m <= v).
Proof.
  destruct l as [|a l]; [left; split; reflexivity|]. right.
  destruct (d3_min_from l a) as [m [Hm [Hin [Hle Hall]]]].
  exists m. split; [exact Hm|]. split.
  - destruct Hin as [->|Hin]; [now left | now right].
  - intros v [<-|Hv]; [exact Hle | now apply Hall].
Qed.

Lemma d3_max_values (l : list Q) :
  (l = [] /\ d3_max (map Fin l) = Undefined)
  \/ exists m : Q, d3_max (map Fin l) = Fin m /\ In m l /\ (forall v, In v l -> v <= m).
Proof.
  destruct l as [|a l]; [left; split; reflexivity|]. right.
  destruct (d3_max_from l a) as [m [Hm [Hin [Hle Hall]]]].
  exists m. split; [exact Hm|]. split.
  - destruct Hin as [->|Hin]; [now left | now right].
  - intros v [<-|Hv]; [exact Hle | now apply Hall].
Qed.

(** The bounds over the first series alone. *)
Lemma first_series_bounds (values : list Q) :
  values <> [] ->
  exists lo hi : Q,
    Math_min (d3_min (map Fin values)) (Fin 0) = Fin lo
    /\ d3_max (map Fin values) = Fin hi
    /\ lo <= 0
    /\ (forall v, In v values -> lo <= v <= hi)
    /\ (lo = 0 \/ In lo values)
    /\ In hi values.
Proof.
  intro Hne.
  destruct (d3_min_values values) as [[E _]|[m [Hm [Hmin Hmall]]]]; [contradiction|].
  destruct (d3_max_values values) as [[E _]|[M [HM [HMin HMall]]]]; [contradiction|].
  rewrite Hm, HM. simpl.
  destruct (Qle_bool m 0) eqn:E.
  - apply Qle_bool_iff in E. exists m, M.
    split; [reflexivity|]. split; [reflexivity|]. split; [exact E|].
    split; [|split; [now right | exact HMin]].
    intros v Hv. split; [now apply Hmall | now apply HMall].
  - assert (E' : 0 < m).
    { apply Qlt_bool_iff. unfold Qlt_bool. rewrite E. reflexivity. }
    exists 0, M.
    split; [reflexivity|]. split; [reflexivity|]. split; [lra|].
    split; [|split; [now left | exact HMin]].
    intros v Hv. split; [specialize (Hmall v Hv); lra | now apply HMall].
Qed.

(** Widening a bound by the values of the second series. *)
Lemma widen_min (a : Q) (l : list Q) :
  exists m : Q,
    d3_min [Fin a; d3_min (map Fin l)] = Fin m
    /\ (m = a \/ In m l) /\ m <= a /\ (forall v, In v l -> m <= v).
Proof.
  unfold d3_min at 1. simpl fold_left.
  destruct (d3_min_values l) as [[-> ->]|[m [-> [Hin Hall]]]].
  - exists a. split; [reflexivity|]. split; [now left|]. split; [lra | intros v []].
  - simpl. destruct (Qlt_bool m a) eqn:E.
    + apply Qlt_bool_iff in E. exists m.
      split; [reflexivity|]. split; [now right|]. split; [lra | exact Hall].
    + apply Qlt_bool_false_iff in E. exists a.
      split; [reflexivity|]. split; [now left|]. split; [lra|].
      intros v Hv. specialize (Hall v Hv). lra.
Qed.

Lemma widen_max (a : Q) (l : list Q) :
  exists m : Q,
    d3_max [Fin a; d3_max (map Fin l)] = Fin m
    /\ (m = a \/ In m l) /\ a <= m /\ (forall v, In v l -> v <= m).
Proof.
  unfold d3_max at 1. simpl fold_left.
  destruct (d3_max_values l) as [[-> ->]|[m [-> [Hin Hall]]]].
  - exists a. split; [reflexivity|]. split; [now left|]. split; [lra | intros v []].
  - simpl. destruct (Qlt_bool a m) eqn:E.
    + apply Qlt_bool_iff in E. exists m.
      split; [reflexivity|]. split; [now right|]. split; [lra | exact Hall].
    + apply Qlt_bool_false_iff in E. exists a.
      split; [reflexivity|]. split; [now left|]. split; [lra|].
      intros v Hv. specialize (Hall v Hv). lra.
Qed.





(** ** Arrays *)

Lemma mapi_from_length {A B : Type} (f : A -> nat -> B) (l : list A) :
  forall i, List.length (mapi_from f l i) = List.length l.
Proof.
  induction l as [|a l IH]; intro i; simpl; [reflexivity|].
  rewrite IH. reflexivity.
Qed.

Lemma mapi_from_nth_error {A B : Type} (f : A -> nat -> B) (l : list A) :
  forall i k,
    nth_error (mapi_from f l i) k
    = option_map (fun a => f a (i + k)%nat) (nth_error l k).
Proof.
  induction l as [|a l IH]; intros i k; simpl.
  - destruct k; reflexivity.
  - destruct k as [|k]; simpl.
    + rewrite Nat.add_0_r. reflexivity.
    + rewrite IH. replace (S i + k)%nat with (i + S k)%nat by lia. reflexivity.
Qed.

Lemma mapi_from_Forall {A B : Type} (P : B -> Prop) (f : A -> nat -> B) (l : list A) :
  (forall a i, In a l -> P (f a i)) ->
  forall i, Forall P (mapi_from f l i).
Proof.
  induction l as [|a l IH]; intros H i; simpl; constructor.
  - apply H. now left.
  - apply IH. intros b j Hb. apply H. now right.
Qed.

Lemma reducei_from_concat {A B : Type} (g : A -> nat -> list B) (l : list A) :
  forall i acc,
    reducei_from (fun previousValue currentValue index =>
                    previousValue ++ g currentValue index) l i acc
    = acc ++ List.concat (mapi_from g l i).
Proof.
  induction l as [|a l IH]; intros i acc; simpl.
  - rewrite app_nil_r. reflexivity.
  - rewrite IH, app_assoc. reflexivity.
Qed.


Lemma concat_mapi_from_length {A B C : Type} (g : A -> nat -> list B) (values : A -> list C)
    (l : list A) :
  (forall a i, List.length (g a i) = List.length (values a)) ->
  forall i, List.length (List.concat (mapi_from g l i)) = List.length (flat_map values l).
Proof.
  intro H. induction l as [|a l IH]; intro i; simpl; [reflexivity|].
  rewrite !length_app, H, IH. reflexivity.
Qed.

(** ** Columns *)

Section Columns.
Context {measure : TextMeasurementService}.
Variable this : TornadoChart.t.
Variable dataView : TornadoChartDataView.t.

Let settings := TornadoChartDataView.settings dataView.
Let series := TornadoChartDataView.series dataView.

Lemma generateColumnDataBySeries_concat :
  TornadoChart.generateColumnDataBySeries this dataView
  = match TornadoChart.seriesScale series (TornadoChart.widthRightSection this) with
    | None => []
    | Some (minValue, maxValue, width) =>
        List.concat (mapi (columnsOfSeries this dataView minValue maxValue width) series)
    end.
Proof.
  unfold TornadoChart.generateColumnDataBySeries. fold series. fold settings.
  destruct (TornadoChart.seriesScale series (TornadoChart.widthRightSection this))
    as [[[minValue maxValue] width]|]; [|reflexivity].
  unfold reducei, mapi.
  exact (reducei_from_concat (columnsOfSeries this dataView minValue maxValue width)
           series 0%nat []).
Qed.

Lemma columnsOfSeries_length (minValue maxValue : number) (width : Q)
    (currentValue : TornadoChartSeries.t) (index : nat) :
  List.length (columnsOfSeries this dataView minValue maxValue width currentValue index)
  = List.length (TornadoChartSeries.values currentValue).
Proof.
  unfold columnsOfSeries, TornadoChart.generateColumnDataByValues, mapi.
  apply mapi_from_length.
Qed.

Lemma generateColumnDataBySeries_length :
  List.length (TornadoChart.generateColumnDataBySeries this dataView)
  = List.length (flat_map TornadoChartSeries.values series).
Proof.
  rewrite generateColumnDataBySeries_concat.
  destruct (TornadoChart.seriesScale series (TornadoChart.widthRightSection this))
    as [[[minValue maxValue] width]|] eqn:E.
  - unfold mapi. apply concat_mapi_from_length. intros a i. apply columnsOfSeries_length.
  - unfold series in *.
    destruct (TornadoChartDataView.series dataView) as [|s0 [|s1 [|s2 rest]]];
      [reflexivity | discriminate E ..].
Qed.


End Columns.

(** ** Labels *)

Section Labels.
Context {measure : TextMeasurementService}.
Variable this : TornadoChart.t.



Lemma setOpacity_labels_Forall (elements : list LabelElement.t) (opacityValue : Q) :
  Forall (fun e => LabelElement.fill_opacity e = opacityValue)
         (TornadoChart.setOpacity_labels elements opacityValue).
Proof.
  unfold TornadoChart.setOpacity_labels. apply Forall_forall. intros e He.
  apply in_map_iff in He. destruct He as [e' [<- _]]. reflexivity.
Qed.



(** C6 (as amended).  The labels layer is hidden as a whole, every label at
    opacity 0, exactly when [showLabels] is false or the label of the first
    column is higher than the row; else every label is at opacity 1. *)
Theorem renderLabels_all_or_nothing (columnsData : list ColumnData.t)
    (settings : TornadoChartSettings.t) :
  let firstHeight :=
    match columnsData with
    | column0 :: _ => LabelData.height (ColumnData.label column0)
    | [] => Fin 0
    end in
  let hidden :=
    negb (TornadoChartSettings.showLabels settings)
    || ngt firstHeight (TornadoChart.heightColumn this) in
  Forall (fun e => LabelElement.fill_opacity e
                   = if hidden then TornadoChart.MinOpacity else TornadoChart.MaxOpacity)
         (TornadoChart.renderLabels this columnsData settings).
Proof.
  intros firstHeight hidden. unfold TornadoChart.renderLabels.
  fold firstHeight. fold hidden.
  destruct hidden; apply setOpacity_labels_Forall.
Qed.

End Labels.

(** ** Orientation of the series *)

Lemma two_series_bounds (values0 values1 : list Q) :
  values0 <> [] \/ values1 <> [] ->
  exists a b : Q,
    d3_min [Math_min (d3_min (map Fin values0)) (Fin 0); d3_min (map Fin values1)] = Fin a
    /\ d3_max [d3_max (map Fin values0); d3_max (map Fin values1)] = Fin b
    /\ (forall v, In v (values0 ++ values1) -> a <= v <= b).
Proof.
  intro H. destruct values0 as [|v0 values0].
  - destruct H as [H|H]; [contradiction|].
    destruct (d3_min_values values1) as [[E _]|[m [-> [_ Hm]]]]; [contradiction|].
    destruct (d3_max_values values1) as [[E _]|[M [-> [_ HM]]]]; [contradiction|].
    exists m, M. split; [reflexivity|]. split; [reflexivity|].
    intros v Hv. split; [now apply Hm | now apply HM].
  - assert (Hne : v0 :: values0 <> []) by discriminate.
    destruct (first_series_bounds _ Hne) as [lo [hi [-> [-> [_ [Hall _]]]]]].
    destruct (widen_min lo values1) as [a [-> [_ [Ha Hal]]]].
    destruct (widen_max hi values1) as [b [-> [_ [Hb Hbl]]]].
    exists a, b. split; [reflexivity|]. split; [reflexivity|].
    intros v Hv. apply in_app_or in Hv. destruct Hv as [Hv|Hv].
    + specialize (Hall v Hv). lra.
    + split; [now apply Hal | now apply Hbl].
Qed.

Section Orientation.
Context {measure : TextMeasurementService}.
Variable this : TornadoChart.t.

(** The geometry of one column on a finite scale. *)
Lemma generateColumnData_geometry (value minValue maxValue width : Q)
    (shiftToMiddle shiftToRight : bool) (color : string) (index : nat)
    (valueFormatter : IValueFormatter.t) (categoryValue : option string)
    (seriesName displayName inside outside : string) :
  let column :=
    TornadoChart.generateColumnData this (Fin value) (Fin minValue) (Fin maxValue)
      (Fin width) shiftToMiddle shiftToRight color index valueFormatter categoryValue
      seriesName displayName inside outside in
  ColumnData.angle column = (if shiftToMiddle then Fin 180 else Fin 0)
  /\ ColumnData.px column = ndiv (ColumnData.width column) (Fin 2)
  /\ ColumnData.py column = ndiv (TornadoChart.heightColumn this) (Fin 2)
  /\ exists barWidth : Q,
       ColumnData.width column = Fin barWidth
       /\ num_eq (ColumnData.dx column)
            (Fin ((width - barWidth) * (if shiftToMiddle then 1 else 0)
                  + width * (if shiftToRight then 1 else 0))).
Proof.
  intro column. split; [reflexivity|]. split; [reflexivity|]. split; [reflexivity|].
  destruct (getColumnWidth_finite value minValue maxValue width) as [barWidth Hw].
  exists barWidth. unfold column, TornadoChart.generateColumnData.
  cbn [ColumnData.width ColumnData.dx]. rewrite Hw. split; [reflexivity|].
  apply num_eq_refl.
Qed.

Lemma columnsOfSeries_geometry (dataView : TornadoChartDataView.t)
    (minValue maxValue width : Q) (currentValue : TornadoChartSeries.t) (index : nat) :
  let shiftToMiddle :=
    Nat.eqb index 0
    && Nat.eqb (List.length (TornadoChartDataView.series dataView)) TornadoChart.MaxSeries in
  let shiftToRight := Nat.eqb index 1 in
  Forall (fun column =>
            ColumnData.angle column = (if shiftToMiddle then Fin 180 else Fin 0)
            /\ ColumnData.px column = ndiv (ColumnData.width column) (Fin 2)
            /\ ColumnData.py column = ndiv (TornadoChart.heightColumn this) (Fin 2)
            /\ exists barWidth : Q,
                 ColumnData.width column = Fin barWidth
                 /\ num_eq (ColumnData.dx column)
                      (Fin ((width - barWidth) * (if shiftToMiddle then 1 else 0)
                            + width * (if shiftToRight then 1 else 0))))
         (columnsOfSeries this dataView (Fin minValue) (Fin maxValue) width
            currentValue index).
Proof.
  intros shiftToMiddle shiftToRight.
  unfold columnsOfSeries, TornadoChart.generateColumnDataByValues, mapi.
  apply mapi_from_Forall. intros v k _. apply generateColumnData_geometry.
Qed.

Lemma columnsOfSeries_no_value (dataView : TornadoChartDataView.t)
    (minValue maxValue : number) (width : Q) (currentValue : TornadoChartSeries.t)
    (index : nat) :
  TornadoChartSeries.values currentValue = [] ->
  columnsOfSeries this dataView minValue maxValue width currentValue index = [].
Proof.
  intro H. unfold columnsOfSeries, TornadoChart.generateColumnDataByValues. rewrite H.
  reflexivity.
Qed.

End Orientation.

Section SeriesOrientation.
Context {measure : TextMeasurementService}.
Variable this : TornadoChart.t.
Variable dataView : TornadoChartDataView.t.

Let regionWidth : Q := TornadoChart.widthRightSection this / 2.

Lemma two_series_columns (series0 series1 : TornadoChartSeries.t) :
  TornadoChartDataView.series dataView = [series0; series1] ->
  (TornadoChartSeries.values series0 = [] /\ TornadoChartSeries.values series1 = []
   /\ TornadoChart.generateColumnDataBySeries this dataView = [])
  \/ exists minValue maxValue : Q,
       TornadoChart.generateColumnDataBySeries this dataView
       = columnsOfSeries this dataView (Fin minValue) (Fin maxValue) regionWidth series0 0
         ++ columnsOfSeries this dataView (Fin minValue) (Fin maxValue) regionWidth series1 1
       /\ (forall v,
             In v (TornadoChartSeries.values series0 ++ TornadoChartSeries.values series1) ->
             minValue <= v <= maxValue).
Proof.
  intro Hs. rewrite generateColumnDataBySeries_concat, Hs.
  cbv beta iota zeta delta [TornadoChart.seriesScale].
  destruct (TornadoChartSeries.values series0) as [|v0 l0] eqn:E0;
    [destruct (TornadoChartSeries.values series1) as [|v1 l1] eqn:E1|].
  - left. split; [reflexivity|]. split; [reflexivity|].
    unfold mapi. simpl.
    rewrite !columnsOfSeries_no_value by assumption. reflexivity.
  - right.
    destruct (two_series_bounds [] (v1 :: l1)) as [a [b [Ha [Hb Hall]]]];
      [right; discriminate|].
    rewrite Ha, Hb. exists a, b. split; [|exact Hall].
    unfold mapi. simpl. rewrite app_nil_r. reflexivity.
  - right.
    destruct (two_series_bounds (v0 :: l0) (TornadoChartSeries.values series1))
      as [a [b [Ha [Hb Hall]]]]; [left; discriminate|].
    rewrite Ha, Hb. exists a, b. split; [|exact Hall].
    unfold mapi. simpl. rewrite app_nil_r. reflexivity.
Qed.

Lemma one_series_columns (series0 : TornadoChartSeries.t) :
  TornadoChartDataView.series dataView = [series0] ->
  TornadoChart.generateColumnDataBySeries this dataView = []
  \/ exists minValue maxValue : Q,
       TornadoChart.generateColumnDataBySeries this dataView
       = columnsOfSeries this dataView (Fin minValue) (Fin maxValue)
           (TornadoChart.widthRightSection this) series0 0
       /\ (forall v, In v (TornadoChartSeries.values series0) ->
                     minValue <= v <= maxValue).
Proof.
  intro Hs. rewrite generateColumnDataBySeries_concat, Hs.
  cbv beta iota zeta delta [TornadoChart.seriesScale].
  destruct (TornadoChartSeries.values series0) as [|v0 l0] eqn:E0.
  - left. unfold mapi. simpl.
    rewrite columnsOfSeries_no_value by assumption. reflexivity.
  - right.
    assert (Hne : v0 :: l0 <> []) by discriminate.
    destruct (first_series_bounds _ Hne) as [lo [hi [Hlo [Hhi [_ [Hall _]]]]]].
    rewrite Hlo, Hhi. exists lo, hi. split; [|exact Hall].
    unfold mapi. simpl. rewrite app_nil_r. reflexivity.
Qed.

(** C4 (as amended).  In a chart of two series every bar of series 0 is
    mirrored: turned by 180 degrees about its own centre
    [(barWidth / 2, rowHeight / 2)] and moved to the far edge of its half
    ([dx == regionWidth - barWidth]); every bar of series 1 is not turned and
    is moved by the width of the region ([dx == regionWidth]).  In a chart of
    one series no bar is turned and no bar is moved ([dx == 0]). *)
Theorem series_orientation :
  (forall series0 series1 : TornadoChartSeries.t,
      TornadoChartDataView.series dataView = [series0; series1] ->
      exists columns0 columns1 : list ColumnData.t,
        TornadoChart.generateColumnDataBySeries this dataView = columns0 ++ columns1
        /\ List.length columns0 = List.length (TornadoChartSeries.values series0)
        /\ List.length columns1 = List.length (TornadoChartSeries.values series1)
        /\ Forall (fun column =>
                     ColumnData.angle column = Fin 180
                     /\ ColumnData.px column = ndiv (ColumnData.width column) (Fin 2)
                     /\ ColumnData.py column = ndiv (TornadoChart.heightColumn this) (Fin 2)
                     /\ exists barWidth : Q,
                          ColumnData.width column = Fin barWidth
                          /\ num_eq (ColumnData.dx column) (Fin (regionWidth - barWidth)))
                  columns0
        /\ Forall (fun column =>
                     ColumnData.angle column = Fin 0
                     /\ num_eq (ColumnData.dx column) (Fin regionWidth))
                  columns1)
  /\ (forall series0 : TornadoChartSeries.t,
      TornadoChartDataView.series dataView = [series0] ->
      Forall (fun column =>
                ColumnData.angle column = Fin 0
                /\ num_eq (ColumnData.dx column) (Fin 0))
             (TornadoChart.generateColumnDataBySeries this dataView)).
Proof.
  split.
  - intros series0 series1 Hs.
    destruct (two_series_columns series0 series1 Hs) as [[E0 [E1 ->]]|[mn [mx [-> _]]]].
    + exists [], []. rewrite E0, E1. repeat split; constructor.
    + eexists. eexists. split; [reflexivity|].
      split; [apply columnsOfSeries_length|]. split; [apply columnsOfSeries_length|].
      split.
      * eapply Forall_impl;
          [|apply (columnsOfSeries_geometry this dataView mn mx regionWidth series0 0)].
        rewrite Hs. cbn [Nat.eqb List.length TornadoChart.MaxSeries andb].
        intros column [Ha [Hpx [Hpy [barWidth [Hw Hdx]]]]].
        split; [exact Ha|]. split; [exact Hpx|]. split; [exact Hpy|].
        exists barWidth. split; [exact Hw|].
        unfold num_eq in *. destruct (ColumnData.dx column); try discriminate.
        simpl in *. apply Qeq_bool_iff in Hdx. apply Qeq_bool_iff. lra.
      * eapply Forall_impl;
          [|apply (columnsOfSeries_geometry this dataView mn mx regionWidth series1 1)].
        cbn [Nat.eqb andb].
        intros column [Ha [_ [_ [barWidth [_ Hdx]]]]].
        split; [exact Ha|].
        unfold num_eq in *. destruct (ColumnData.dx column); try discriminate.
        simpl in *. apply Qeq_bool_iff in Hdx. apply Qeq_bool_iff. lra.
  - intros series0 Hs.
    destruct (one_series_columns series0 Hs) as [->|[mn [mx [-> _]]]]; [constructor|].
    eapply Forall_impl;
      [|apply (columnsOfSeries_geometry this dataView mn mx
                 (TornadoChart.widthRightSection this) series0 0)].
    rewrite Hs. cbn [Nat.eqb List.length TornadoChart.MaxSeries andb].
    intros column [Ha [_ [_ [barWidth [_ Hdx]]]]].
    split; [exact Ha|].
    unfold num_eq in *. destruct (ColumnData.dx column); try discriminate.
    simpl in *. apply Qeq_bool_iff in Hdx. apply Qeq_bool_iff. lra.
Qed.

End SeriesOrientation.

Lemma series_orientation_witness :
  let this := laidOut 400 200 twoSeriesModel in
  let this1 := laidOut 400 200 oneSeriesModel in
  (exists columns0 columns1 : list ColumnData.t,
      @TornadoChart.generateColumnDataBySeries monospace this twoSeriesModel
      = columns0 ++ columns1
      /\ List.length columns0 = 2%nat
      /\ List.length columns1 = 2%nat
      /\ Forall (fun column =>
                   ColumnData.angle column = Fin 180
                   /\ ColumnData.px column = ndiv (ColumnData.width column) (Fin 2)
                   /\ ColumnData.py column = ndiv (TornadoChart.heightColumn this) (Fin 2)
                   /\ exists barWidth : Q,
                        ColumnData.width column = Fin barWidth
                        /\ num_eq (ColumnData.dx column)
                             (Fin (TornadoChart.widthRightSection this / 2 - barWidth)))
                columns0
      /\ Forall (fun column =>
                   ColumnData.angle column = Fin 0
                   /\ num_eq (ColumnData.dx column)
                        (Fin (TornadoChart.widthRightSection this / 2)))
                columns1)
  /\ Forall (fun column =>
               ColumnData.angle column = Fin 0
               /\ num_eq (ColumnData.dx column) (Fin 0))
            (@TornadoChart.generateColumnDataBySeries monospace this1 oneSeriesModel).
Proof.
  intros this this1. split.
  - apply (proj1 (@series_orientation monospace this twoSeriesModel)
             (sampleSeries "Sales" [10; -5]) (sampleSeries "Costs" [20; 15])).
    reflexivity.
  - apply (proj2 (@series_orientation monospace this1 oneSeriesModel)
             (sampleSeries "Sales" [5; 5])).
    reflexivity.
Defined.

(** ** Scenarios *)

(** Categories A and B, the series [10, -5] and [20, 15], a viewport of 400
    by 200: two rows 85 high, the bars of the first series turned and left of
    the axis, the bars of the second series right of it, the axis in the
    middle of the region of width 305. *)
Example scenario_two_series :
  let this := laidOut 400 200 twoSeriesModel in
  let columns := @TornadoChart.generateColumnDataBySeries monospace this twoSeriesModel in
  num_eqb (TornadoChart.heightColumn this) (Fin 85) = true
  /\ map ColumnData.angle columns = [Fin 180; Fin 180; Fin 0; Fin 0]
  /\ forallb (fun line => num_eqb (LineData.x1 line) (Fin (305 / 2)))
             (TornadoChart.generateAxesData this) = true.
Proof.
  intros this columns. split; [vm_compute; reflexivity|].
  split; vm_compute; reflexivity.
Qed.

(** The single series [5, 5]: both bars fill the region. *)
Example scenario_equal_values :
  let this := laidOut 400 200 oneSeriesModel in
  let columns := @TornadoChart.generateColumnDataBySeries monospace this oneSeriesModel in
  List.length columns = 2%nat
  /\ forallb (fun column => num_eqb (ColumnData.width column) (Fin 305)) columns = true.
Proof.
  intros this columns. split; vm_compute; reflexivity.
Qed.

(** The columns after a click on a bar, and after a click beside the bars
    once the transitions have ended. *)
Example scenario_clicks :
  let this := laidOut 400 200 twoSeriesModel in
  let columns := map sampleColumn [1; 1; 1; 1] in
  let clicked := TornadoChart.column_click this 3 columns true in
  map ColumnElement.fill_opacity (snd clicked) = [2 # 10; 1; 2 # 10; 1]
  /\ map ColumnElement.fill_opacity
       (snd (TornadoChart.document_click (fst clicked) (snd clicked) false))
     = [1; 1; 1; 1].
Proof.
  intros this columns clicked. split; vm_compute; reflexivity.
Qed.

(** C4 as stated fails for the sole series of a chart of one series: on a
    viewport 400 wide the region is 305 wide, and both bars stay at
    [dx == 0]. *)
Lemma sole_series_is_not_offset :
  let this := laidOut 400 200 oneSeriesModel in
  let columns := @TornadoChart.generateColumnDataBySeries monospace this oneSeriesModel in
  let regionWidth := TornadoChart.widthRightSection this in
  List.length columns = 2%nat
  /\ regionWidth == 305
  /\ forallb (fun column =>
                num_eqb (ColumnData.angle column) (Fin 0)
                && num_eqb (ColumnData.dx column) (Fin 0)
                && negb (num_eqb (ColumnData.dx column) (Fin regionWidth)))
             columns = true.
Proof.
  intros this columns regionWidth.
  split; [vm_compute; reflexivity|]. split; vm_compute; reflexivity.
Qed.

(** C6 as stated fails when a later label is higher than the first one: in
    rows 25 high the label of the first bar is 12 high and the label ["20"]
    of the third bar is 40 high, higher than its row, and every label is
    shown at opacity 1. *)
Lemma renderLabels_ignores_later_labels :
  let this := laidOut 400 80 twoSeriesModel in
  let settings := TornadoChartDataView.settings twoSeriesModel in
  let columns := @TornadoChart.generateColumnDataBySeries fallbackFont this twoSeriesModel in
  TornadoChartSettings.showLabels settings = true
  /\ TornadoChart.heightColumn this = Fin (50 # 2)
  /\ map (fun column => LabelData.height (ColumnData.label column)) columns
     = [Fin 12; Fin 12; Fin 40; Fin 12]
  /\ existsb (fun column =>
                ngt (LabelData.height (ColumnData.label column))
                    (TornadoChart.heightColumn this))
             columns = true
  /\ map LabelElement.fill_opacity (TornadoChart.renderLabels this columns settings)
     = [1; 1; 1; 1].
Proof.
  intros this settings columns.
  split; [reflexivity|]. split; [vm_compute; reflexivity|].
  split; [vm_compute; reflexivity|]. split; vm_compute; reflexivity.
Qed.

(** When all labels have the same height, the label of the first column
    stands for all of them. *)
Lemma first_label_stands_for_all (this : TornadoChart.t)
    (columnsData : list ColumnData.t) (height : number) :
  columnsData <> [] ->
  Forall (fun column => LabelData.height (ColumnData.label column) = height) columnsData ->
  let firstHeight :=
    match columnsData with
    | column0 :: _ => LabelData.height (ColumnData.label column0)
    | [] => Fin 0
    end in
  ngt firstHeight (TornadoChart.heightColumn this)
  = existsb (fun column =>
               ngt (LabelData.height (ColumnData.label column))
                   (TornadoChart.heightColumn this))
            columnsData.
Proof.
  intros Hne Hall firstHeight. unfold firstHeight.
  destruct columnsData as [|column0 rest]; [contradiction|].
  pose proof (Forall_inv Hall) as H0. pose proof (Forall_inv_tail Hall) as Hrest.
  simpl in H0. simpl. rewrite H0.
  destruct (ngt height (TornadoChart.heightColumn this)) eqn:E; [reflexivity|].
  simpl. symmetry. clear -Hrest E.
  induction rest as [|c rest IH]; [reflexivity|].
  pose proof (Forall_inv Hrest) as Hc. pose proof (Forall_inv_tail Hrest) as Hrest'.
  simpl in Hc. simpl. rewrite Hc, E. simpl.
  apply IH. exact Hrest'.
Qed.

(** X19.  When all labels have the same measured height, [renderLabels]
    hides the labels layer, every label at opacity 0, exactly when
    [showLabels] is false or some label is higher than the row, and else
    shows every label at opacity 1. *)
Theorem renderLabels_uniform_heights (this : TornadoChart.t)
    (columnsData : list ColumnData.t) (settings : TornadoChartSettings.t)
    (height : number) :
  Forall (fun column => LabelData.height (ColumnData.label column) = height) columnsData ->
  let hidden :=
    negb (TornadoChartSettings.showLabels settings)
    || existsb (fun column =>
                  ngt (LabelData.height (ColumnData.label column))
                      (TornadoChart.heightColumn this))
               columnsData in
  Forall (fun e => LabelElement.fill_opacity e
                   = if hidden then TornadoChart.MinOpacity else TornadoChart.MaxOpacity)
         (TornadoChart.renderLabels this columnsData settings).
Proof.
  intros Hall hidden.
  destruct columnsData as [|column0 rest] eqn:Ecols.
  - unfold TornadoChart.renderLabels, TornadoChart.setOpacity_labels.
    cbn [map]. destruct (negb _ || ngt _ _); constructor.
  - assert (Hne : column0 :: rest <> []) by discriminate.
    pose proof (first_label_stands_for_all this (column0 :: rest) height Hne Hall) as H.
    cbv zeta in H. unfold TornadoChart.renderLabels.
    rewrite H. fold hidden.
    destruct hidden; apply setOpacity_labels_Forall.
Qed.

(** ** Sections *)

(** C7.  After [updateSections] and [updateSectionsWidth] on a model the
    left section has the configured size when the categories are shown and
    the size 0 when they are hidden, the right section has the rest of 100
    (in percent) or of the viewport width (in pixels) beside that left
    section, and each section is as wide as its size, or as that percentage
    of the viewport width.  With the categories hidden the left section is
    0 wide and the right section is the rest beside 0. *)
Theorem section_widths (this : TornadoChart.t) (dataView : TornadoChartDataView.t) :
  let this' := TornadoChart.updateSectionsWidth (TornadoChart.updateSections this (Some dataView)) in
  let showCategories :=
    TornadoChartSettings.showCategories (TornadoChartDataView.settings dataView) in
  let isPercent := TornadoChartSections.isPercent (TornadoChart.currentSections this) in
  let viewportWidth := IViewport.width (TornadoChart.viewport this) in
  let left :=
    if showCategories then TornadoChartSections.left (TornadoChart.sections this) else 0 in
  let right := if isPercent then 100 - left else viewportWidth - left in
  TornadoChart.currentSections this' = TornadoChartSections.mk left right isPercent
  /\ TornadoChart.widthLeftSection this'
     = (if isPercent then left * viewportWidth / 100 else left)
  /\ TornadoChart.widthRightSection this'
     = (if isPercent then right * viewportWidth / 100 else right)
  /\ (showCategories = false ->
      TornadoChartSections.left (TornadoChart.currentSections this') = 0
      /\ TornadoChart.widthLeftSection this' == 0
      /\ TornadoChartSections.right (TornadoChart.currentSections this')
         = (if isPercent then 100 - 0 else viewportWidth - 0)
      /\ TornadoChart.widthRightSection this'
         = (if isPercent then (100 - 0) * viewportWidth / 100 else viewportWidth - 0)).
Proof.
  intros this' showCategories isPercent viewportWidth left right.
  split; [reflexivity|]. split; [reflexivity|]. split; [reflexivity|].
  intro Hshow.
  unfold this', TornadoChart.updateSectionsWidth, TornadoChart.updateSections,
    TornadoChart.getValueByPercent, TornadoChart.MaxSizeSections.
  cbn [TornadoChart.with_widthSections TornadoChart.with_currentSections
       TornadoChart.currentSections TornadoChart.viewport
       TornadoChart.widthLeftSection TornadoChart.widthRightSection
       TornadoChartSections.left TornadoChartSections.right
       TornadoChartSections.isPercent].
  fold showCategories isPercent viewportWidth. rewrite Hshow.
  split; [reflexivity|]. split; [|split].
  - destruct isPercent; [field | reflexivity].
  - destruct isPercent; reflexivity.
  - destruct isPercent; reflexivity.
Qed.

Lemma section_widths_witness :
  let this := TornadoChart.setSize (TornadoChart.constructor None) (IViewport.mk 200 400) in
  let dataView := sampleModel false ["A"; "B"]%string [sampleSeries "Sales" [5; 5]] in
  let this' :=
    TornadoChart.updateSectionsWidth (TornadoChart.updateSections this (Some dataView)) in
  TornadoChartSections.left (TornadoChart.currentSections this') = 0
  /\ TornadoChart.widthLeftSection this' == 0
  /\ TornadoChartSections.right (TornadoChart.currentSections this')
     = IViewport.width (TornadoChart.viewport this) - 0
  /\ TornadoChart.widthRightSection this'
     = IViewport.width (TornadoChart.viewport this) - 0.
Proof.
  intros this dataView this'.
  apply (proj2 (proj2 (proj2 (section_widths this dataView)))).
  reflexivity.
Defined.

(** With the categories shown: the default sections, in pixels, on a
    viewport 400 wide give 75 and 305; sections of 20 percent on the same
    viewport give 76 and 304. *)
Example scenario_sections :
  let shown := sampleModel true ["A"; "B"]%string [sampleSeries "Sales" [5; 5]] in
  let sized (options : option TornadoChart.TornadoChartConstructorOptions.t) :=
    TornadoChart.updateSectionsWidth
      (TornadoChart.updateSections
         (TornadoChart.setSize (TornadoChart.constructor options) (IViewport.mk 200 400))
         (Some shown)) in
  let percent :=
    Some (TornadoChart.TornadoChartConstructorOptions.mk None
            (Some (TornadoChartSections.mk 20 0 true)) None) in
  (TornadoChart.widthLeftSection (sized None) == 75
   /\ TornadoChart.widthRightSection (sized None) == 305)
  /\ (TornadoChart.widthLeftSection (sized percent) == 76
      /\ TornadoChart.widthRightSection (sized percent) == 304).
Proof.
  intros shown sized percent. repeat split; vm_compute; reflexivity.
Qed.

(** ** Selection *)

Lemma filter_all {A : Type} (f : A -> bool) (l : list A) :
  (forall a, In a l -> f a = true) -> filter f l = l.
Proof.
  intro H. induction l as [|a l IH]; simpl; [reflexivity|].
  rewrite (H a) by now left. f_equal. apply IH. intros b Hb. apply H. now right.
Qed.

(** The predicate of the filter in [setSelection] compares a datum with
    elements: it holds of every column. *)
Lemma d3_filter_keeps_all (columns : list ColumnElement.t) (index currentIndexOfColumn : nat) :
  TornadoChart.d3_filter columns
    (fun item =>
       strict_neq item (TornadoChart.columnElement_at columns index)
       || strict_neq item (TornadoChart.columnElement_at columns currentIndexOfColumn))
  = seq 0 (List.length columns).
Proof.
  unfold TornadoChart.d3_filter. apply filter_all. intros k _.
  unfold TornadoChart.columnElement_at.
  destruct (Nat.ltb index (List.length columns)); reflexivity.
Qed.

Lemma existsb_seq (k n : nat) : existsb (Nat.eqb k) (seq 0 n) = Nat.ltb k n.
Proof.
  destruct (Nat.ltb k n) eqn:E.
  - apply Nat.ltb_lt in E. apply existsb_exists. exists k. split.
    + apply in_seq. lia.
    + apply Nat.eqb_refl.
  - apply Nat.ltb_ge in E.
    destruct (existsb (Nat.eqb k) (seq 0 n)) eqn:E'; [|reflexivity].
    apply existsb_exists in E'. destruct E' as [x [Hx Hk]].
    apply in_seq in Hx. apply Nat.eqb_eq in Hk. lia.
Qed.

Lemma setOpacity_nth_error (columns : list ColumnElement.t)
    (element : TornadoChart.selection) (opacityValue : Q) (k : nat) :
  nth_error (TornadoChart.setOpacity columns element opacityValue) k
  = option_map
      (fun e => if existsb (Nat.eqb k) element
                then ColumnElement.mk (ColumnElement.datum e) opacityValue
                else e)
      (nth_error columns k).
Proof.
  unfold TornadoChart.setOpacity, mapi. rewrite mapi_from_nth_error. reflexivity.
Qed.

Lemma d3_select_in_range (columns : list ColumnElement.t) (index : nat) :
  (index < List.length columns)%nat ->
  TornadoChart.d3_select (TornadoChart.columnElement_at columns index) = [index].
Proof.
  intro H. unfold TornadoChart.columnElement_at.
  apply Nat.ltb_lt in H. rewrite H. reflexivity.
Qed.

Lemma mirror_even (n i : nat) :
  (i < 2 * n)%nat ->
  (mirror (2 * n) i < 2 * n)%nat
  /\ mirror (2 * n) i <> i
  /\ mirror (2 * n) (mirror (2 * n) i) = i.
Proof.
  intro Hi. unfold mirror.
  replace (Nat.div (2 * n) 2) with n
    by (rewrite Nat.mul_comm; symmetry; apply Nat.div_mul; discriminate).
  destruct (Nat.ltb i n) eqn:E.
  - apply Nat.ltb_lt in E.
    assert (E' : Nat.ltb (i + n) n = false) by (apply Nat.ltb_ge; lia).
    rewrite E'. lia.
  - apply Nat.ltb_ge in E.
    assert (E' : Nat.ltb (i - n) n = true) by (apply Nat.ltb_lt; lia).
    rewrite E'. lia.
Qed.

(** The columns after a click on column [i] of a chart of two series. *)
Lemma setSelection_nth_error (columns : list ColumnElement.t) (i k : nat) :
  (i < List.length columns)%nat ->
  (mirror (List.length columns) i < List.length columns)%nat ->
  nth_error (TornadoChart.setSelection i columns true) k
  = option_map
      (fun e =>
         ColumnElement.mk (ColumnElement.datum e)
           (if Nat.eqb k i || Nat.eqb k (mirror (List.length columns) i)
            then TornadoChart.MaxOpacity
            else TornadoChart.MinColumnOpacity))
      (nth_error columns k).
Proof.
  intros Hi Hm. unfold TornadoChart.setSelection.
  change (if Nat.ltb i (Nat.div (List.length columns) 2)
          then (i + Nat.div (List.length columns) 2)%nat
          else (i - Nat.div (List.length columns) 2)%nat)
    with (mirror (List.length columns) i).
  rewrite d3_filter_keeps_all, !d3_select_in_range by assumption.
  rewrite !setOpacity_nth_error.
  destruct (nth_error columns k) as [e|] eqn:E; [|reflexivity].
  assert (Hk : (k < List.length columns)%nat)
    by (apply nth_error_Some; rewrite E; discriminate).
  rewrite existsb_seq. apply Nat.ltb_lt in Hk. rewrite Hk.
  cbn [option_map existsb ColumnElement.datum].
  rewrite !orb_false_r.
  destruct (Nat.eqb k i); destruct (Nat.eqb k (mirror (List.length columns) i));
    reflexivity.
Qed.

Lemma mirror_in_range (c i : nat) : (i < c)%nat -> (mirror c i < c)%nat.
Proof.
  intro Hi. unfold mirror.
  pose proof (Nat.div_mod_eq c 2) as Hc.
  destruct (Nat.ltb i (Nat.div c 2)) eqn:E.
  - apply Nat.ltb_lt in E. lia.
  - lia.
Qed.

(** C8 (as amended).  A click on column [i] of a chart of two series
    leaves column [i] and its mirror at full opacity and every other column
    at the reduced opacity, whatever the number of columns.  When the number
    of columns is even, [2 * n] for two series of [n] values each, the
    mirror is another column, the mirror of the mirror is [i], and a click on
    the mirror gives the same columns as a click on [i]. *)
Theorem setSelection_mirrored_pair (columns : list ColumnElement.t) (i : nat) :
  let c := List.length columns in
  (i < c)%nat ->
  (mirror c i < c)%nat
  /\ (forall k, (k < c)%nat ->
        option_map ColumnElement.fill_opacity
          (nth_error (TornadoChart.setSelection i columns true) k)
        = Some (if Nat.eqb k i || Nat.eqb k (mirror c i)
                then TornadoChart.MaxOpacity
                else TornadoChart.MinColumnOpacity))
  /\ (forall n : nat, c = (2 * n)%nat ->
        mirror c i <> i
        /\ mirror c (mirror c i) = i
        /\ TornadoChart.setSelection (mirror c i) columns true
           = TornadoChart.setSelection i columns true).
Proof.
  intros c Hi. pose proof (mirror_in_range c i Hi) as Hm.
  split; [exact Hm|]. split.
  - intros k Hk. unfold c. rewrite (setSelection_nth_error columns i k Hi Hm).
    destruct (nth_error columns k) as [e|] eqn:E; [reflexivity|].
    exfalso. apply nth_error_None in E. unfold c in Hk. lia.
  - intros n Hlen. assert (Hi2 : (i < 2 * n)%nat) by (rewrite <- Hlen; exact Hi).
    rewrite Hlen. destruct (mirror_even n i Hi2) as [_ [Hne Hinv]].
    split; [exact Hne|]. split; [exact Hinv|].
    apply nth_error_ext. intro k. unfold c in Hlen, Hm.
    rewrite (setSelection_nth_error columns i k Hi Hm).
    rewrite (setSelection_nth_error columns (mirror (2 * n) i) k).
    + rewrite Hlen, Hinv, (orb_comm (Nat.eqb k (mirror (2 * n) i))). reflexivity.
    + rewrite <- Hlen. exact Hm.
    + rewrite Hlen, Hinv. rewrite <- Hlen. exact Hi.
Qed.

Lemma setSelection_mirrored_pair_witness :
  let columns := map sampleColumn [1; 1; 1; 1] in
  (mirror 4 1 < 4)%nat
  /\ (forall k, (k < 4)%nat ->
        option_map ColumnElement.fill_opacity
          (nth_error (TornadoChart.setSelection 1 columns true) k)
        = Some (if Nat.eqb k 1 || Nat.eqb k (mirror 4 1)
                then TornadoChart.MaxOpacity
                else TornadoChart.MinColumnOpacity))
  /\ mirror 4 1 <> 1%nat
  /\ mirror 4 (mirror 4 1) = 1%nat
  /\ TornadoChart.setSelection (mirror 4 1) columns true
     = TornadoChart.setSelection 1 columns true.
Proof.
  intro columns.
  assert (Hi : (1 < List.length columns)%nat) by (simpl; lia).
  destruct (setSelection_mirrored_pair columns 1 Hi) as [Hm [Hopacity Heven]].
  split; [exact Hm|]. split; [exact Hopacity|].
  apply (Heven 2%nat). reflexivity.
Defined.

(** C8 as stated fails for an odd number of columns.  [converter] takes
    value columns of two and of one value as they are, the chart has three
    columns and [half] is 1: a click on column 2 leaves the columns 2 and 1
    at full opacity, a click on its mirror 1 leaves the columns 1 and 0, and
    the mirror of the mirror of 2 is 0. *)
Lemma setSelection_odd_count_not_symmetric :
  let columns :=
    map (fun datum => ColumnElement.mk datum 1)
        (@TornadoChart.generateColumnDataBySeries monospace
           (laidOut 400 200 unevenModel) unevenModel) in
  match @TornadoChart.converter plainHost
          (Some (dataViewWithMeasures
                   [sampleValueColumn "Sales" [10; -5]; sampleValueColumn "Costs" [20]]))
  with
  | Normal (Some model) =>
      map TornadoChartSeries.values (TornadoChartDataView.series model)
      = map TornadoChartSeries.values (TornadoChartDataView.series unevenModel)
  | _ => False
  end
  /\ List.length columns = 3%nat
  /\ mirror 3 2 = 1%nat
  /\ mirror 3 (mirror 3 2) = 0%nat
  /\ map ColumnElement.fill_opacity (TornadoChart.setSelection 2 columns true)
     = [2 # 10; 1; 1]
  /\ map ColumnElement.fill_opacity
       (TornadoChart.setSelection (mirror 3 2) columns true)
     = [1; 1; 2 # 10]
  /\ TornadoChart.setSelection (mirror 3 2) columns true
     <> TornadoChart.setSelection 2 columns true.
Proof.
  intro columns.
  split; [vm_compute; reflexivity|]. split; [vm_compute; reflexivity|].
  split; [reflexivity|]. split; [reflexivity|].
  assert (H2 : map ColumnElement.fill_opacity (TornadoChart.setSelection 2 columns true)
               = [2 # 10; 1; 1]) by (vm_compute; reflexivity).
  assert (H1 : map ColumnElement.fill_opacity
                 (TornadoChart.setSelection (mirror 3 2) columns true)
               = [1; 1; 2 # 10]) by (vm_compute; reflexivity).
  split; [exact H2|]. split; [exact H1|].
  intro E. rewrite E, H2 in H1. discriminate H1.
Qed.

(** A chart of two series with [n] values each has [2 * n] columns. *)
Lemma two_series_column_count {measure : TextMeasurementService}
    (this : TornadoChart.t) (dataView : TornadoChartDataView.t)
    (series0 series1 : TornadoChartSeries.t) (n : nat) :
  TornadoChartDataView.series dataView = [series0; series1] ->
  List.length (TornadoChartSeries.values series0) = n ->
  List.length (TornadoChartSeries.values series1) = n ->
  List.length (TornadoChart.generateColumnDataBySeries this dataView) = (2 * n)%nat.
Proof.
  intros Hs H0 H1. rewrite generateColumnDataBySeries_length, Hs. simpl.
  rewrite app_nil_r, length_app, H0, H1. lia.
Qed.

(** ** Data normalisation *)

Section Converter.
Context {host : HostServices}.

(** X16.  Whenever the data view, its categorical part, its categories, the
    first category column, the source of that column or the values are
    missing, [converter] returns the [null] model. *)
Lemma converter_null_when_missing (dataView : option DataView.t) :
  guarded dataView = None -> TornadoChart.converter dataView = Normal None.
Proof.
  unfold guarded, TornadoChart.converter.
  destruct dataView as [dv|]; [|reflexivity].
  destruct (DataView.categorical dv) as [categorical|]; [|reflexivity].
  destruct (DataViewCategorical.categories categorical) as [categoryColumns|];
    [|reflexivity].
  destruct (nth_error categoryColumns 0) as [category0|].
  - destruct (DataViewCategoryColumn.source category0) as [source|].
    + destruct (DataViewCategorical.values categorical); [discriminate | reflexivity].
    + destruct (DataViewCategorical.values categorical); reflexivity.
  - destruct (DataViewCategorical.values categorical); reflexivity.
Qed.

Lemma parseSettings_returns (dv : DataView.t) (category0 : DataViewCategoryColumn.t)
    (source : DataViewMetadataColumn.t) (valueColumns : list DataViewValueColumn.t)
    (objects : option DataViewObjects) (value : number) :
  guarded (Some dv) = Some (dv, category0, source, valueColumns) ->
  exists settings : TornadoChartSettings.t,
    TornadoChart.parseSettings dv objects value = Normal settings.
Proof.
  unfold guarded, TornadoChart.parseSettings.
  destruct (DataView.categorical dv) as [categorical|]; [|discriminate].
  destruct (DataViewCategorical.categories categorical) as [categoryColumns|] eqn:Ec;
    [|discriminate].
  destruct (DataViewCategorical.values categorical) as [values|]; [|discriminate].
  destruct (nth_error categoryColumns 0) as [c0|] eqn:E0; [|discriminate].
  destruct (DataViewCategoryColumn.source c0) as [src|] eqn:Es; [|discriminate].
  intros _. cbn [property_of bind]. rewrite Ec. cbn [property_of bind].
  rewrite E0. cbn [property_of bind]. eexists. reflexivity.
Qed.

(** X17.  With every guarded part present and at least one value column,
    [converter] returns a model; the model keeps the categories and the
    values of the first two value columns, and of no other. *)
Lemma converter_returns_model (dv : DataView.t) (category0 : DataViewCategoryColumn.t)
    (source : DataViewMetadataColumn.t) (valueColumns : list DataViewValueColumn.t) :
  guarded (Some dv) = Some (dv, category0, source, valueColumns) ->
  valueColumns <> [] ->
  exists model : TornadoChartDataView.t,
    TornadoChart.converter (Some dv) = Normal (Some model)
    /\ TornadoChartDataView.categories model = DataViewCategoryColumn.values category0
    /\ map TornadoChartSeries.values (TornadoChartDataView.series model)
       = map DataViewValueColumn.values (firstn 2 valueColumns)
    /\ (List.length (TornadoChartDataView.series model) <= 2)%nat.
Proof.
  intros Hg Hne.
  assert (Hsettings : forall objects value, exists settings,
             TornadoChart.parseSettings dv objects value = Normal settings)
    by (intros; eapply parseSettings_returns; exact Hg).
  revert Hg. unfold guarded, TornadoChart.converter.
  destruct (DataView.categorical dv) as [categorical|]; [|discriminate].
  destruct (DataViewCategorical.categories categorical) as [categoryColumns|];
    [|discriminate].
  destruct (DataViewCategorical.values categorical) as [values|]; [|discriminate].
  destruct (nth_error categoryColumns 0) as [c0|]; [|discriminate].
  destruct (DataViewCategoryColumn.source c0) as [src|]; [|discriminate].
  intro Hg. injection Hg as -> -> ->.
  destruct valueColumns as [|column0 rest]; [contradiction|].
  cbn [firstn TornadoChart.MaxSeries nth_error property_of bind].
  destruct (Hsettings
              (TornadoChart.getObjectsFromDataView (Some dv))
              (TornadoChart.first_number (DataViewValueColumn.values column0)))
    as [settings ->].
  cbn [bind]. eexists. split; [reflexivity|].
  cbn [TornadoChartDataView.categories TornadoChartDataView.series].
  split; [reflexivity|]. split.
  - unfold TornadoChart.parseSeries, mapi. destruct rest; reflexivity.
  - unfold TornadoChart.parseSeries, mapi. rewrite mapi_from_length.
    destruct rest; simpl; lia.
Qed.

(** With every guarded part present but an empty array of value columns,
    [values[0]] is [undefined] and reading its [values] throws. *)
Lemma converter_throws_without_values (dv : DataView.t)
    (category0 : DataViewCategoryColumn.t) (source : DataViewMetadataColumn.t) :
  guarded (Some dv) = Some (dv, category0, source, []) ->
  TornadoChart.converter (Some dv) = Throw TypeError.
Proof.
  unfold guarded, TornadoChart.converter.
  destruct (DataView.categorical dv) as [categorical|]; [|discriminate].
  destruct (DataViewCategorical.categories categorical) as [categoryColumns|];
    [|discriminate].
  destruct (DataViewCategorical.values categorical) as [values|]; [|discriminate].
  destruct (nth_error categoryColumns 0) as [c0|]; [|discriminate].
  destruct (DataViewCategoryColumn.source c0) as [src|]; [|discriminate].
  intro Hg. injection Hg as -> -> ->. reflexivity.
Qed.

(** C9.  [converter] is not total: on a data view that has its category
    column and an empty array of value columns it throws a [TypeError]
    instead of returning the [null] model. *)
Theorem converter_throws_on_empty_values :
  guarded (Some dataViewWithoutMeasure) <> None
  /\ TornadoChart.converter (Some dataViewWithoutMeasure) = Throw TypeError.
Proof.
  split; [discriminate | reflexivity].
Qed.

End Converter.

(** * Further properties of the layout *)

(** ** The scale of the bars *)

(** X1.  The scale is monotone: between bounds in order and on a region that
    is not of negative width, a greater value never gets a narrower bar. *)
Theorem getColumnWidth_monotone (value1 value2 minValue maxValue regionWidth : Q) :
  minValue <= maxValue -> 0 <= regionWidth -> value1 <= value2 ->
  exists width1 width2 : Q,
    TornadoChart.getColumnWidth (Fin value1) (Fin minValue) (Fin maxValue)
      (Fin regionWidth) = Fin width1
    /\ TornadoChart.getColumnWidth (Fin value2) (Fin minValue) (Fin maxValue)
         (Fin regionWidth) = Fin width2
    /\ width1 <= width2.
Proof.
  intros Hb Hw Hv. destruct (Qeq_dec minValue maxValue) as [E|E].
  - exists regionWidth, regionWidth.
    rewrite !(getColumnWidth_degenerate _ _ _ _ E). repeat split. lra.
  - destruct (getColumnWidth_scaled value1 minValue maxValue regionWidth E) as [_ ->].
    destruct (getColumnWidth_scaled value2 minValue maxValue regionWidth E) as [_ ->].
    eexists. eexists. split; [reflexivity|]. split; [reflexivity|].
    assert (Hpos : 0 < maxValue + - minValue).
    { destruct (Qlt_le_dec minValue maxValue) as [L|L]; [lra|]. exfalso. apply E. lra. }
    unfold Qdiv. apply Qmult_le_compat_r.
    + rewrite (Qmult_comm regionWidth (value1 + - minValue)),
              (Qmult_comm regionWidth (value2 + - minValue)).
      apply Qmult_le_compat_r; lra.
    + apply Qlt_le_weak. apply Qinv_lt_0_compat. exact Hpos.
Qed.

Lemma getColumnWidth_monotone_witness :
  exists width1 width2 : Q,
    TornadoChart.getColumnWidth (Fin (-5)) (Fin (-5)) (Fin 20) (Fin 100) = Fin width1
    /\ TornadoChart.getColumnWidth (Fin 15) (Fin (-5)) (Fin 20) (Fin 100) = Fin width2
    /\ width1 <= width2.
Proof.
  apply (getColumnWidth_monotone (-5) 15 (-5) 20 100);
    unfold Qle; simpl; lia.
Defined.

(** ** Construction *)

(** X4.  No chart has a padding of 0 between its rows: the constructor
    takes a padding of 0 for a missing one and keeps the initial padding
    of 10. *)
Theorem constructor_padding_not_zero (options : option TornadoChart.TornadoChartConstructorOptions.t) :
  ~ TornadoChart.columnPadding (TornadoChart.constructor options) == 0.
Proof.
  destruct options as [o|]; [|discriminate].
  unfold TornadoChart.constructor. cbn [TornadoChart.columnPadding].
  destruct (TornadoChart.TornadoChartConstructorOptions.columnPadding o) as [p|];
    [|discriminate].
  destruct (Qeq_bool p 0) eqn:E; [discriminate|].
  apply Qeq_bool_neq. exact E.
Qed.

(** ** Selection *)

Lemma setOpacity_length (columns : list ColumnElement.t)
    (element : TornadoChart.selection) (opacityValue : Q) :
  List.length (TornadoChart.setOpacity columns element opacityValue)
  = List.length columns.
Proof. unfold TornadoChart.setOpacity, mapi. apply mapi_from_length. Qed.

Lemma setSelection_length (i : nat) (columns : list ColumnElement.t)
    (selectSecondSeries : bool) :
  List.length (TornadoChart.setSelection i columns selectSecondSeries)
  = List.length columns.
Proof.
  unfold TornadoChart.setSelection.
  destruct selectSecondSeries; rewrite !setOpacity_length; reflexivity.
Qed.

(** The columns after a click on column [i], with one series or two. *)
Lemma setSelection_columns (columns : list ColumnElement.t) (i k : nat)
    (selectSecondSeries : bool) :
  (i < List.length columns)%nat ->
  nth_error (TornadoChart.setSelection i columns selectSecondSeries) k
  = option_map
      (fun e =>
         ColumnElement.mk (ColumnElement.datum e)
           (if Nat.eqb k i
               || (selectSecondSeries && Nat.eqb k (mirror (List.length columns) i))
            then TornadoChart.MaxOpacity
            else TornadoChart.MinColumnOpacity))
      (nth_error columns k).
Proof.
  intro Hi. destruct selectSecondSeries.
  - rewrite (setSelection_nth_error columns i k Hi (mirror_in_range _ _ Hi)).
    reflexivity.
  - unfold TornadoChart.setSelection.
    rewrite d3_filter_keeps_all, d3_select_in_range by assumption.
    rewrite !setOpacity_nth_error.
    destruct (nth_error columns k) as [e|] eqn:E; [|reflexivity].
    assert (Hk : (k < List.length columns)%nat)
      by (apply nth_error_Some; rewrite E; discriminate).
    rewrite existsb_seq. apply Nat.ltb_lt in Hk. rewrite Hk.
    cbn [option_map existsb ColumnElement.datum andb].
    rewrite !orb_false_r.
    destruct (Nat.eqb k i); reflexivity.
Qed.

(** X5.  In a chart of one series a click on column [i] leaves that column
    alone at full opacity and every other column at the reduced opacity; the
    columns keep their number and their data. *)
Theorem setSelection_single_series (columns : list ColumnElement.t) (i : nat) :
  (i < List.length columns)%nat ->
  map ColumnElement.datum (TornadoChart.setSelection i columns false)
  = map ColumnElement.datum columns
  /\ forall k e,
       nth_error (TornadoChart.setSelection i columns false) k = Some e ->
       ColumnElement.fill_opacity e
       = if Nat.eqb k i then TornadoChart.MaxOpacity else TornadoChart.MinColumnOpacity.
Proof.
  intro Hi. split.
  - apply nth_error_ext. intro k.
    rewrite !nth_error_map, (setSelection_columns columns i k false Hi).
    destruct (nth_error columns k); reflexivity.
  - intros k e. rewrite (setSelection_columns columns i k false Hi).
    destruct (nth_error columns k) as [e'|]; [|discriminate].
    cbn [option_map andb]. rewrite orb_false_r. intro H. injection H as <-.
    reflexivity.
Qed.

Lemma setSelection_single_series_witness :
  let columns := map sampleColumn [1; 2 # 10; 1] in
  map ColumnElement.datum (TornadoChart.setSelection 2 columns false)
  = map ColumnElement.datum columns
  /\ forall k e,
       nth_error (TornadoChart.setSelection 2 columns false) k = Some e ->
       ColumnElement.fill_opacity e
       = if Nat.eqb k 2 then TornadoChart.MaxOpacity else TornadoChart.MinColumnOpacity.
Proof.
  intro columns. apply (setSelection_single_series columns 2). simpl. lia.
Defined.

(** X6.  A click on a column replaces the selection: the columns after the
    click do not depend on the opacities left by an earlier click. *)
Theorem setSelection_replaces_selection (columns : list ColumnElement.t) (i j : nat)
    (selectSecondSeries earlier : bool) :
  (i < List.length columns)%nat ->
  (j < List.length columns)%nat ->
  TornadoChart.setSelection i (TornadoChart.setSelection j columns earlier)
    selectSecondSeries
  = TornadoChart.setSelection i columns selectSecondSeries.
Proof.
  intros Hi Hj. apply nth_error_ext. intro k.
  rewrite setSelection_columns by (rewrite setSelection_length; exact Hi).
  rewrite setSelection_length.
  rewrite (setSelection_columns columns j k earlier Hj).
  rewrite (setSelection_columns columns i k selectSecondSeries Hi).
  destruct (nth_error columns k); reflexivity.
Qed.

Lemma setSelection_replaces_selection_witness :
  let columns := map sampleColumn [1; 1; 1; 1] in
  TornadoChart.setSelection 3 (TornadoChart.setSelection 0 columns true) true
  = TornadoChart.setSelection 3 columns true.
Proof.
  intro columns. apply (setSelection_replaces_selection columns 3 0 true true);
    simpl; lia.
Defined.





(** ** The model that [converter] returns *)

Section ConverterModel.
Context {host : HostServices}.

Lemma getPrecision_not_negative (objects : option DataViewObjects) (q : Q) :
  TornadoChart.getPrecision objects = Fin q -> 0 <= q.
Proof.
  unfold TornadoChart.getPrecision, TornadoChart.MinPrecision.
  destruct (getValue_number objects TornadoChart.Properties.labels_labelPrecision
              TornadoChart.DefaultTornadoChartSettings.precision) as [p|s| |];
    cbn [nle].
  - destruct (Qle_bool p 0) eqn:E; intro H; injection H as <-.
    + lra.
    + apply Qlt_le_weak. apply Qlt_bool_iff. unfold Qlt_bool. rewrite E. reflexivity.
  - destruct s; intro H; [injection H as <-; lra | discriminate].
  - discriminate.
  - discriminate.
Qed.

Lemma parseSettings_precision (dv : DataView.t) (objects : option DataViewObjects)
    (value : number) (settings : TornadoChartSettings.t) :
  TornadoChart.parseSettings dv objects value = Normal settings ->
  TornadoChartSettings.precision settings = TornadoChart.getPrecision objects.
Proof.
  unfold TornadoChart.parseSettings.
  destruct (DataView.categorical dv) as [categorical|]; [|discriminate].
  cbn [property_of bind].
  destruct (DataViewCategorical.categories categorical) as [categoryColumns|];
    [|discriminate].
  cbn [property_of bind].
  destruct (nth_error categoryColumns 0) as [c0|]; [|discriminate].
  cbn [property_of bind].
  intro H. injection H as <-. reflexivity.
Qed.

(** What a model returned by [converter] is made of. *)
Lemma converter_model_shape (dataView : option DataView.t) (model : TornadoChartDataView.t) :
  TornadoChart.converter dataView = Normal (Some model) ->
  exists (dv : DataView.t) (objects : option DataViewObjects) (value : number)
         (column0 : DataViewValueColumn.t) (rest : list DataViewValueColumn.t),
    TornadoChart.parseSettings dv objects value
      = Normal (TornadoChartDataView.settings model)
    /\ TornadoChartDataView.series model
       = TornadoChart.parseSeries (firstn 2 (column0 :: rest))
    /\ TornadoChartDataView.legend model
       = TornadoChart.getLegendData (TornadoChartDataView.series model).
Proof.
  unfold TornadoChart.converter.
  destruct dataView as [dv|]; [|discriminate].
  destruct (DataView.categorical dv) as [categorical|]; [|discriminate].
  destruct (DataViewCategorical.categories categorical) as [categoryColumns|];
    [|discriminate].
  destruct (nth_error categoryColumns 0) as [c0|]; [|discriminate].
  destruct (DataViewCategoryColumn.source c0) as [src|]; [|discriminate].
  destruct (DataViewCategorical.values categorical) as [valueColumns|]; [|discriminate].
  destruct valueColumns as [|column0 rest]; [discriminate|].
  cbn [firstn TornadoChart.MaxSeries nth_error property_of bind].
  destruct (TornadoChart.parseSettings dv
              (TornadoChart.getObjectsFromDataView (Some dv))
              (TornadoChart.first_number (DataViewValueColumn.values column0)))
    as [settings|e] eqn:Es; [|discriminate].
  cbn [bind]. intro H. injection H as <-.
  exists dv, (TornadoChart.getObjectsFromDataView (Some dv)),
    (TornadoChart.first_number (DataViewValueColumn.values column0)), column0, rest.
  split; [exact Es|]. split; reflexivity.
Qed.

(** X8.  Every model that [converter] returns has one or two series, a
    legend with one unselected entry per series that carries the name and the
    colour of its series, and a precision that is not a negative number. *)
Theorem converter_model_invariants (dataView : option DataView.t)
    (model : TornadoChartDataView.t) :
  TornadoChart.converter dataView = Normal (Some model) ->
  let series := TornadoChartDataView.series model in
  let dataPoints := LegendData.dataPoints (TornadoChartDataView.legend model) in
  (1 <= List.length series <= 2)%nat
  /\ map LegendDataPoint.label dataPoints = map TornadoChartSeries.name series
  /\ map LegendDataPoint.color dataPoints = map TornadoChartSeries.fill series
  /\ Forall (fun point => LegendDataPoint.selected point = false) dataPoints
  /\ (forall q : Q,
        TornadoChartSettings.precision (TornadoChartDataView.settings model) = Fin q ->
        0 <= q).
Proof.
  intros H series dataPoints. unfold dataPoints, series.
  destruct (converter_model_shape dataView model H)
    as [dv [objects [value [column0 [rest [Hsettings [Hseries Hlegend]]]]]]].
  rewrite Hlegend. unfold TornadoChart.getLegendData. cbn [LegendData.dataPoints].
  split; [|split; [|split; [|split]]].
  - rewrite Hseries. unfold TornadoChart.parseSeries, mapi. rewrite mapi_from_length.
    destruct rest; simpl; lia.
  - rewrite map_map. reflexivity.
  - rewrite map_map. reflexivity.
  - apply Forall_forall. intros point Hp. apply in_map_iff in Hp.
    destruct Hp as [s [<- _]]. reflexivity.
  - intros q Hq. rewrite (parseSettings_precision _ _ _ _ Hsettings) in Hq.
    exact (getPrecision_not_negative objects q Hq).
Qed.

End ConverterModel.

Lemma converter_model_invariants_witness :
  exists model : TornadoChartDataView.t,
    (1 <= List.length (TornadoChartDataView.series model) <= 2)%nat
    /\ map LegendDataPoint.label
         (LegendData.dataPoints (TornadoChartDataView.legend model))
       = map TornadoChartSeries.name (TornadoChartDataView.series model)
    /\ map LegendDataPoint.color
         (LegendData.dataPoints (TornadoChartDataView.legend model))
       = map TornadoChartSeries.fill (TornadoChartDataView.series model)
    /\ Forall (fun point => LegendDataPoint.selected point = false)
         (LegendData.dataPoints (TornadoChartDataView.legend model))
    /\ (forall q : Q,
          TornadoChartSettings.precision (TornadoChartDataView.settings model) = Fin q ->
          0 <= q).
Proof.
  eexists.
  apply (@converter_model_invariants plainHost
           (Some (dataViewWithMeasures
                    [sampleValueColumn "Sales" [10; -5];
                     sampleValueColumn "Costs" [20; 15];
                     sampleValueColumn "Stock" [1; 2]]))).
  reflexivity.
Defined.

(** ** The columns, one run per series *)

Lemma mapi_from_Forall2 {A B : Type} (R : A -> B -> Prop) (g : A -> nat -> B) (l : list A) :
  (forall a i, In a l -> R a (g a i)) ->
  forall i, Forall2 R l (mapi_from g l i).
Proof.
  induction l as [|a l IH]; intros H i; simpl; constructor.
  - apply H. now left.
  - apply IH. intros b j Hb. apply H. now right.
Qed.

Section Runs.
Context {measure : TextMeasurementService}.
Variable this : TornadoChart.t.
Variable dataView : TornadoChartDataView.t.

Let settings := TornadoChartDataView.settings dataView.

(** The columns of the chart are the columns of its series, one run after
    the other; a property that [generateColumnData] gives the column of the
    [k]-th value of a series holds of the [k]-th column of the run of that
    series. *)
Lemma columns_in_runs (P : TornadoChartSeries.t -> nat -> ColumnData.t -> Prop) :
  (forall currentValue value minValue maxValue width shiftToMiddle shiftToRight k,
      nth_error (TornadoChartSeries.values currentValue) k = Some value ->
      P currentValue k
        (TornadoChart.generateColumnData this (Fin value) minValue maxValue width
           shiftToMiddle shiftToRight (TornadoChartSeries.fill currentValue) k
           (TornadoChartSettings.formatter settings)
           (nth_error (TornadoChartDataView.categories dataView) k)
           (TornadoChartSeries.name currentValue)
           (TornadoChartDataView.displayName dataView)
           (TornadoChartSettings.labelInsideFillColour settings)
           (TornadoChartSettings.labelOutsideFillColour settings))) ->
  exists runs : list (list ColumnData.t),
    TornadoChart.generateColumnDataBySeries this dataView = List.concat runs
    /\ Forall2 (fun currentValue run =>
                  List.length run = List.length (TornadoChartSeries.values currentValue)
                  /\ forall k column, nth_error run k = Some column ->
                                      P currentValue k column)
               (TornadoChartDataView.series dataView) runs.
Proof.
  intro H. rewrite generateColumnDataBySeries_concat.
  destruct (TornadoChart.seriesScale (TornadoChartDataView.series dataView)
              (TornadoChart.widthRightSection this))
    as [[[minValue maxValue] width]|] eqn:E.
  - eexists. split; [reflexivity|]. unfold mapi. apply mapi_from_Forall2.
    intros s i _. split; [apply columnsOfSeries_length|].
    intros k column.
    unfold columnsOfSeries, TornadoChart.generateColumnDataByValues, mapi.
    rewrite mapi_from_nth_error.
    destruct (nth_error (TornadoChartSeries.values s) k) as [v|] eqn:Ev; [|discriminate].
    cbn [option_map Nat.add]. intro Hc. injection Hc as <-. apply H. exact Ev.
  - exists []. split; [reflexivity|].
    destruct (TornadoChartDataView.series dataView) as [|s0 [|s1 [|s2 rest]]];
      [constructor | discriminate E ..].
Qed.

End Runs.

(** ** Rows *)

(** X9.  With at least one category, the rows are stacked from the top:
    in the run of every series the [k]-th column is one row high and starts
    [k] rows and [k] paddings down, at [(rowHeight + padding) * k]. *)
Theorem rows_are_stacked {measure : TextMeasurementService} (this : TornadoChart.t)
    (dataView : TornadoChartDataView.t) :
  let count := List.length (TornadoChartDataView.categories dataView) in
  let padding := TornadoChart.columnPadding this in
  let this' := TornadoChart.computeHeightColumn this dataView in
  (1 <= count)%nat ->
  exists rowHeight : Q,
    TornadoChart.heightColumn this' = Fin rowHeight
    /\ exists runs : list (list ColumnData.t),
         TornadoChart.generateColumnDataBySeries this' dataView = List.concat runs
         /\ Forall2
              (fun currentValue run =>
                 List.length run = List.length (TornadoChartSeries.values currentValue)
                 /\ forall k column,
                      nth_error run k = Some column ->
                      ColumnData.height column = Fin rowHeight
                      /\ ColumnData.dy column
                         = Fin ((rowHeight + padding) * inject_Z (Z.of_nat k)))
              (TornadoChartDataView.series dataView) runs.
Proof.
  intros count padding this' Hn.
  pose proof (inject_nat_pos count Hn) as Hpos.
  assert (Hnz : ~ inject_Z (Z.of_nat count) == 0) by lra.
  pose proof (computeHeightColumn_value this dataView) as Hh.
  fold count in Hh. rewrite (ndiv_Fin_nonzero _ _ Hnz) in Hh.
  fold this' in Hh. eexists. split; [exact Hh|].
  apply (columns_in_runs this' dataView).
  intros s v mn mx w m r k _.
  unfold TornadoChart.generateColumnData.
  cbn [ColumnData.height ColumnData.dy]. rewrite Hh.
  split; reflexivity.
Qed.

Lemma rows_are_stacked_witness :
  exists rowHeight : Q,
    TornadoChart.heightColumn
      (TornadoChart.computeHeightColumn (laidOut 400 200 twoSeriesModel) twoSeriesModel)
    = Fin rowHeight
    /\ exists runs : list (list ColumnData.t),
         @TornadoChart.generateColumnDataBySeries monospace
           (TornadoChart.computeHeightColumn (laidOut 400 200 twoSeriesModel) twoSeriesModel)
           twoSeriesModel
         = List.concat runs
         /\ Forall2
              (fun currentValue run =>
                 List.length run = List.length (TornadoChartSeries.values currentValue)
                 /\ forall k column,
                      nth_error run k = Some column ->
                      ColumnData.height column = Fin rowHeight
                      /\ ColumnData.dy column
                         = Fin ((rowHeight + 10) * inject_Z (Z.of_nat k)))
              (TornadoChartDataView.series twoSeriesModel) runs.
Proof.
  apply (@rows_are_stacked monospace (laidOut 400 200 twoSeriesModel) twoSeriesModel).
  simpl. lia.
Defined.

(** X10.  Every column carries the data of its bar: the [k]-th column of
    the run of a series has the [k]-th value of that series as the source of
    its label, the colour of the series, and a tooltip of two entries, the
    category of row [k] under the name of the category column and the text
    of the label under the name of the series. *)
Theorem columns_carry_their_data {measure : TextMeasurementService}
    (this : TornadoChart.t) (dataView : TornadoChartDataView.t) :
  exists runs : list (list ColumnData.t),
    TornadoChart.generateColumnDataBySeries this dataView = List.concat runs
    /\ Forall2
         (fun currentValue run =>
            List.length run = List.length (TornadoChartSeries.values currentValue)
            /\ forall k column,
                 nth_error run k = Some column ->
                 exists value : Q,
                   nth_error (TornadoChartSeries.values currentValue) k = Some value
                   /\ LabelData.source (ColumnData.label column) = Fin value
                   /\ ColumnData.color column = TornadoChartSeries.fill currentValue
                   /\ ColumnData.tooltipData column
                      = [ TooltipDataItem.mk
                            (TornadoChartDataView.displayName dataView)
                            (nth_error (TornadoChartDataView.categories dataView) k);
                          TooltipDataItem.mk
                            (TornadoChartSeries.name currentValue)
                            (Some (LabelData.value (ColumnData.label column))) ])
         (TornadoChartDataView.series dataView) runs.
Proof.
  apply (columns_in_runs this dataView
           (fun currentValue k column =>
              exists value : Q,
                nth_error (TornadoChartSeries.values currentValue) k = Some value
                /\ LabelData.source (ColumnData.label column) = Fin value
                /\ ColumnData.color column = TornadoChartSeries.fill currentValue
                /\ ColumnData.tooltipData column
                   = [ TooltipDataItem.mk
                         (TornadoChartDataView.displayName dataView)
                         (nth_error (TornadoChartDataView.categories dataView) k);
                       TooltipDataItem.mk
                         (TornadoChartSeries.name currentValue)
                         (Some (LabelData.value (ColumnData.label column))) ])).
  intros s v mn mx w m r k Hv. exists v. split; [exact Hv|].
  split; [reflexivity|]. split; reflexivity.
Qed.

(** ** Categories *)



(** ** Labels and bars *)

Section FiniteScale.
Context {measure : TextMeasurementService}.
Variable this : TornadoChart.t.
Variable dataView : TornadoChartDataView.t.

Let settings := TornadoChartDataView.settings dataView.


End FiniteScale.




(** ** The axis *)

(** X13.  The axis is drawn for two series only, from the top to the bottom
    of the chart, in the middle of the chart region, and the bars of both
    series are placed against it: every bar of series 1 starts at the axis,
    and every bar of series 0 starts its own width before the axis. *)
Theorem bars_meet_at_the_axis {measure : TextMeasurementService}
    (this : TornadoChart.t) (dataView : TornadoChartDataView.t) :
  (List.length (TornadoChartDataView.series dataView) <> 2%nat ->
   TornadoChart.renderAxes this dataView = [])
  /\ (forall series0 series1 : TornadoChartSeries.t,
      TornadoChartDataView.series dataView = [series0; series1] ->
      let axis := TornadoChart.widthRightSection this / 2 in
      TornadoChart.renderAxes this dataView
      = [ LineData.mk (Fin axis) (Fin 0) (Fin axis)
            (Fin (IViewport.height (TornadoChart.viewport this))) ]
      /\ exists columns0 columns1 : list ColumnData.t,
           TornadoChart.generateColumnDataBySeries this dataView = columns0 ++ columns1
           /\ List.length columns0 = List.length (TornadoChartSeries.values series0)
           /\ List.length columns1 = List.length (TornadoChartSeries.values series1)
           /\ Forall (fun column =>
                        num_eq (ColumnData.dx column)
                               (nsub (Fin axis) (ColumnData.width column)))
                     columns0
           /\ Forall (fun column => num_eq (ColumnData.dx column) (Fin axis)) columns1).
Proof.
  split.
  - intro Hne. unfold TornadoChart.renderAxes, TornadoChart.MaxSeries.
    destruct (Nat.eqb (List.length (TornadoChartDataView.series dataView)) 2) eqn:E;
      [|reflexivity].
    apply Nat.eqb_eq in E. contradiction.
  - intros series0 series1 Hs axis. split.
    + unfold TornadoChart.renderAxes. rewrite Hs. reflexivity.
    + destruct (two_series_columns this dataView series0 series1 Hs)
        as [[E0 [E1 ->]]|[mn [mx [-> _]]]].
      * exists [], []. rewrite E0, E1. repeat split; constructor.
      * eexists. eexists. split; [reflexivity|].
        split; [apply columnsOfSeries_length|]. split; [apply columnsOfSeries_length|].
        split.
        -- eapply Forall_impl;
             [|apply (columnsOfSeries_geometry this dataView mn mx axis series0 0)].
           rewrite Hs. cbn [Nat.eqb List.length TornadoChart.MaxSeries andb].
           intros column [_ [_ [_ [barWidth [Hw Hdx]]]]].
           rewrite Hw. unfold num_eq in *.
           destruct (ColumnData.dx column); try discriminate.
           simpl in *. apply Qeq_bool_iff in Hdx. apply Qeq_bool_iff. lra.
        -- eapply Forall_impl;
             [|apply (columnsOfSeries_geometry this dataView mn mx axis series1 1)].
           cbn [Nat.eqb andb].
           intros column [_ [_ [_ [barWidth [_ Hdx]]]]].
           unfold num_eq in *. destruct (ColumnData.dx column); try discriminate.
           simpl in *. apply Qeq_bool_iff in Hdx. apply Qeq_bool_iff. lra.
Qed.

Lemma bars_meet_at_the_axis_witness :
  let this := laidOut 400 200 twoSeriesModel in
  let axis := TornadoChart.widthRightSection this / 2 in
  TornadoChart.renderAxes (laidOut 400 200 oneSeriesModel) oneSeriesModel = []
  /\ TornadoChart.renderAxes this twoSeriesModel
     = [ LineData.mk (Fin axis) (Fin 0) (Fin axis)
           (Fin (IViewport.height (TornadoChart.viewport this))) ]
  /\ exists columns0 columns1 : list ColumnData.t,
       @TornadoChart.generateColumnDataBySeries monospace this twoSeriesModel
       = columns0 ++ columns1
       /\ List.length columns0 = 2%nat
       /\ List.length columns1 = 2%nat
       /\ Forall (fun column =>
                    num_eq (ColumnData.dx column)
                           (nsub (Fin axis) (ColumnData.width column)))
                 columns0
       /\ Forall (fun column => num_eq (ColumnData.dx column) (Fin axis)) columns1.
Proof.
  intros this axis. split.
  - apply (proj1 (@bars_meet_at_the_axis monospace (laidOut 400 200 oneSeriesModel)
                    oneSeriesModel)).
    simpl. lia.
  - apply (proj2 (@bars_meet_at_the_axis monospace this twoSeriesModel)
             (sampleSeries "Sales" [10; -5]) (sampleSeries "Costs" [20; 15])).
    reflexivity.
Defined.

(** ** A first series without values *)

(** X15.  When the first of two series has no value and the second has,
    the bounds of the scale are the least and the greatest value of the
    second series: the least value is taken as it is, also above 0. *)
Theorem seriesScale_second_series_only (series0 series1 : TornadoChartSeries.t)
    (width : Q) :
  TornadoChartSeries.values series0 = [] ->
  TornadoChartSeries.values series1 <> [] ->
  exists minValue maxValue : Q,
    TornadoChart.seriesScale [series0; series1] width
    = Some (Fin minValue, Fin maxValue, width / 2)
    /\ In minValue (TornadoChartSeries.values series1)
    /\ In maxValue (TornadoChartSeries.values series1)
    /\ forall v, In v (TornadoChartSeries.values series1) -> minValue <= v <= maxValue.
Proof.
  intros E0 Hne. unfold TornadoChart.seriesScale. rewrite E0.
  destruct (d3_min_values (TornadoChartSeries.values series1))
    as [[E _]|[m [Hm [Hmin Hml]]]]; [contradiction|].
  destruct (d3_max_values (TornadoChartSeries.values series1))
    as [[E _]|[M [HM [HMin HMl]]]]; [contradiction|].
  rewrite Hm, HM. exists m, M. split; [reflexivity|].
  split; [exact Hmin|]. split; [exact HMin|].
  intros v Hv. split; [now apply Hml | now apply HMl].
Qed.

Lemma seriesScale_second_series_only_witness :
  exists minValue maxValue : Q,
    TornadoChart.seriesScale [sampleSeries "Sales" []; sampleSeries "Costs" [5; 7]] 305
    = Some (Fin minValue, Fin maxValue, 305 / 2)
    /\ In minValue [5; 7]
    /\ In maxValue [5; 7]
    /\ forall v, In v [5; 7] -> minValue <= v <= maxValue.
Proof.
  apply (seriesScale_second_series_only (sampleSeries "Sales" [])
           (sampleSeries "Costs" [5; 7]) 305).
  - reflexivity.
  - simpl. discriminate.
Defined.

(** ** The width of the chart region *)



(** ** Instances of the properties above *)

Lemma converter_null_when_missing_witness :
  @TornadoChart.converter plainHost
    (Some (DataView.mk None
             (Some (DataViewCategorical.mk (Some [])
                      (Some [sampleValueColumn "Sales" [10; -5]])))))
  = Normal None.
Proof.
  apply (@converter_null_when_missing plainHost). reflexivity.
Defined.

Lemma converter_returns_model_witness :
  exists model : TornadoChartDataView.t,
    @TornadoChart.converter plainHost
      (Some (dataViewWithMeasures
               [sampleValueColumn "Sales" [10; -5];
                sampleValueColumn "Costs" [20; 15];
                sampleValueColumn "Stock" [1; 2]]))
    = Normal (Some model)
    /\ TornadoChartDataView.categories model = ["A"; "B"]%string
    /\ map TornadoChartSeries.values (TornadoChartDataView.series model)
       = [[10; -5]; [20; 15]]
    /\ (List.length (TornadoChartDataView.series model) <= 2)%nat.
Proof.
  apply (@converter_returns_model plainHost
           (dataViewWithMeasures
              [sampleValueColumn "Sales" [10; -5];
               sampleValueColumn "Costs" [20; 15];
               sampleValueColumn "Stock" [1; 2]])
           sampleCategoryColumn
           (DataViewMetadataColumn.mk "Category" "Table.Category" None)
           [sampleValueColumn "Sales" [10; -5];
            sampleValueColumn "Costs" [20; 15];
            sampleValueColumn "Stock" [1; 2]]).
  - reflexivity.
  - discriminate.
Defined.

Lemma renderLabels_uniform_heights_witness :
  let this := laidOut 400 200 twoSeriesModel in
  let settings := TornadoChartDataView.settings twoSeriesModel in
  let columns := @TornadoChart.generateColumnDataBySeries monospace this twoSeriesModel in
  Forall (fun e => LabelElement.fill_opacity e
                   = if negb (TornadoChartSettings.showLabels settings)
                        || existsb (fun column =>
                                      ngt (LabelData.height (ColumnData.label column))
                                          (TornadoChart.heightColumn this))
                                   columns
                     then TornadoChart.MinOpacity
                     else TornadoChart.MaxOpacity)
         (TornadoChart.renderLabels this columns settings).
Proof.
  intros this settings columns.
  apply (renderLabels_uniform_heights this columns settings (Fin 12)).
  vm_compute. repeat constructor.
Defined.
